(** * WebclickerAutomator: a shallow embedding of [webclicker_auto_fixed.py]

    The script drives a browser through Selenium.  The browser is an
    external capability: the embedding represents it by the answers it
    gives to the calls the script makes ([find_elements], [element.text],
    [get_attribute], [send_keys], [click]), each of which either returns
    a value or raises.  Every call made on the browser is recorded in a
    trace, so that statements such as "no DOM query is made" or "exactly
    one click is invoked" are statements about the trace.

    Conventions.
    - Python [str] values are [string]s holding their UTF-8 encoding.
      [strip] removes the code points for which [str.isspace] holds, in
      ASCII and beyond.  [lower] changes the ASCII letters only; the
      patterns [login] looks for are ASCII and the only other characters
      whose lower case contains an ASCII letter are U+212A, which gives
      "k", a letter of no pattern, and U+0130, which gives "i" followed
      by a combining mark, while every "i" of a pattern is followed by a
      letter; so the substring tests are the same as in Python.
    - [check_interval] is a natural number of seconds.  A negative
      interval, which [time.sleep] refuses, is not represented: the passes
      of the loop are those whose sleep returned.
    - [exn] ranges over subclasses of Python's [Exception], which is what
      the Selenium calls raise.  [KeyboardInterrupt] is a signal sent to
      the process, not an answer of the browser, and is not an [exn].
    - Calls to [logger] have no effect on the browser and are left out.
    - [random.choice] is given the value drawn from the generator as an
      extra argument. *)

From Stdlib Require Import List String Ascii Bool Arith Lia.
Import ListNotations.
Open Scope string_scope.
Open Scope nat_scope.
Open Scope list_scope.

(** ** Results and exceptions *)

Inductive exn : Type :=
| TimeoutException
| NoSuchElementException
| StaleElementReferenceException
| ElementNotInteractableException
| ElementClickInterceptedException
| WebDriverException.

Definition exn_eqb (a b : exn) : bool :=
  match a, b with
  | TimeoutException, TimeoutException
  | NoSuchElementException, NoSuchElementException
  | StaleElementReferenceException, StaleElementReferenceException
  | ElementNotInteractableException, ElementNotInteractableException
  | ElementClickInterceptedException, ElementClickInterceptedException
  | WebDriverException, WebDriverException => true
  | _, _ => false
  end.

Inductive result (A : Type) : Type :=
| Ok (a : A)
| Raise (e : exn).
Arguments Ok {A} a.
Arguments Raise {A} e.

(** ** The browser capability *)

Inductive By : Type := XPATH | CSS_SELECTOR | TAG_NAME.

(** A [WebElement] handle, given by what each of its methods answers. *)
Record WebElement : Type := {
  el_id : nat;
  el_text : result string;
  el_get_attribute : string -> result (option string);
  el_send_keys : string -> result unit;
  el_click : result unit
}.

(** The [driver], as seen during one pass of the script over the page. *)
Record WebDriver : Type := {
  find_elements : By -> string -> result (list WebElement);
  driver_get : string -> result unit
}.

Inductive event : Type :=
| Navigate (url : string)
| Find (by_ : By) (value : string)
| ReadText (e : WebElement)
| ReadAttr (e : WebElement) (name : string)
| SendKeys (e : WebElement) (keys : string)
| Click (e : WebElement)
| Sleep (seconds : nat)
| Quit.

Definition trace := list event.

(** ** Computations: a trace of browser calls and a value or an exception *)

Definition M (A : Type) : Type := (trace * result A)%type.

Definition ret {A} (a : A) : M A := ([], Ok a).

Definition bind {A B} (m : M A) (f : A -> M B) : M B :=
  match m with
  | (t, Ok a) => let (t', r) := f a in (t ++ t', r)
  | (t, Raise e) => (t, Raise e)
  end.

Notation "x <- c ;; k" := (bind c (fun x => k))
  (at level 61, c at next level, right associativity).
Notation "c ;;; k" := (bind c (fun _ => k))
  (at level 61, right associativity).

(** [try: m except <classes>: h] *)
Definition try_except {A} (catches : exn -> bool) (m : M A) (h : exn -> M A)
  : M A :=
  match m with
  | (t, Ok a) => (t, Ok a)
  | (t, Raise e) =>
      if catches e then let (t', r) := h e in (t ++ t', r) else (t, Raise e)
  end.

(** [try: m finally: f] *)
Definition try_finally {A} (m : M A) (f : M unit) : M A :=
  match m, f with
  | (t, r), (t', Ok _) => (t ++ t', r)
  | (t, _), (t', Raise e) => (t ++ t', Raise e)
  end.

(** [except Exception] *)
Definition any_Exception (_ : exn) : bool := true.

(** [except (TimeoutException, NoSuchElementException)] *)
Definition Timeout_or_NoSuchElement (e : exn) : bool :=
  exn_eqb e TimeoutException || exn_eqb e NoSuchElementException.

Definition call_find_elements (d : WebDriver) (b : By) (v : string)
  : M (list WebElement) := ([Find b v], find_elements d b v).
Definition call_get (d : WebDriver) (url : string) : M unit :=
  ([Navigate url], driver_get d url).
Definition call_quit (outcome : result unit) : M unit := ([Quit], outcome).
Definition call_sleep (n : nat) : M unit := ([Sleep n], Ok tt).
Definition call_text (e : WebElement) : M string := ([ReadText e], el_text e).
Definition call_get_attribute (e : WebElement) (n : string)
  : M (option string) := ([ReadAttr e n], el_get_attribute e n).
Definition call_send_keys (e : WebElement) (k : string) : M unit :=
  ([SendKeys e k], el_send_keys e k).
Definition call_click (e : WebElement) : M unit := ([Click e], el_click e).

(** ** The string methods the script uses *)

(** [str.isspace] on an ASCII character: U+0009 to U+000D, U+001C to
    U+001F and the blank. *)
Definition is_space (c : ascii) : bool :=
  let n := nat_of_ascii c in
  ((9 <=? n) && (n <=? 13)) || ((28 <=? n) && (n <=? 32)).

(** The whitespace of two bytes: U+0085 (C2 85) and U+00A0 (C2 A0). *)
Definition is_space2 (b1 b2 : ascii) : bool :=
  let n2 := nat_of_ascii b2 in
  (nat_of_ascii b1 =? 194) && ((n2 =? 133) || (n2 =? 160)).

(** The whitespace of three bytes: U+1680 (E1 9A 80), U+2000 to U+200A
    (E2 80 80 to E2 80 8A), U+2028, U+2029, U+202F (E2 80 A8, A9, AF),
    U+205F (E2 81 9F) and U+3000 (E3 80 80). *)
Definition is_space3 (b1 b2 b3 : ascii) : bool :=
  let n1 := nat_of_ascii b1 in
  let n2 := nat_of_ascii b2 in
  let n3 := nat_of_ascii b3 in
  ((n1 =? 225) && (n2 =? 154) && (n3 =? 128))
  || ((n1 =? 226) && (n2 =? 128)
      && (((128 <=? n3) && (n3 <=? 138))
          || (n3 =? 168) || (n3 =? 169) || (n3 =? 175)))
  || ((n1 =? 226) && (n2 =? 129) && (n3 =? 159))
  || ((n1 =? 227) && (n2 =? 128) && (n3 =? 128)).

(** [s.lstrip()]: whitespace code points are dropped from the front. *)
Fixpoint lstrip (s : string) : string :=
  match s with
  | String c r =>
      if is_space c then lstrip r
      else
        match r with
        | String c2 r2 =>
            if is_space2 c c2 then lstrip r2
            else
              match r2 with
              | String c3 r3 => if is_space3 c c2 c3 then lstrip r3 else s
              | EmptyString => s
              end
        | EmptyString => s
        end
  | EmptyString => EmptyString
  end.

Fixpoint rev_onto (s acc : string) : string :=
  match s with
  | String c r => rev_onto r (String c acc)
  | EmptyString => acc
  end.

(** A string read from its last byte to its first. *)
Definition backwards (s : string) : string := rev_onto s EmptyString.

(** [lstrip] on a string read backwards: the bytes of a code point come
    last byte first. *)
Fixpoint lstrip_backwards (s : string) : string :=
  match s with
  | String c r =>
      if is_space c then lstrip_backwards r
      else
        match r with
        | String c2 r2 =>
            if is_space2 c2 c then lstrip_backwards r2
            else
              match r2 with
              | String c3 r3 =>
                  if is_space3 c3 c2 c then lstrip_backwards r3 else s
              | EmptyString => s
              end
        | EmptyString => s
        end
  | EmptyString => EmptyString
  end.

(** [s.rstrip()]: whitespace code points are dropped from the end. *)
Definition rstrip (s : string) : string :=
  backwards (lstrip_backwards (backwards s)).

(** [s.strip()] *)
Definition strip (s : string) : string := rstrip (lstrip s).

Definition lower_char (c : ascii) : ascii :=
  let n := nat_of_ascii c in
  if (65 <=? n) && (n <=? 90) then ascii_of_nat (n + 32) else c.

(** [s.lower()] *)
Fixpoint lower (s : string) : string :=
  match s with
  | String c r => String (lower_char c) (lower r)
  | EmptyString => EmptyString
  end.

(** [pat in s] for two strings. *)
Fixpoint contains (pat s : string) : bool :=
  String.prefix pat s ||
  match s with
  | String _ r => contains pat r
  | EmptyString => false
  end.

(** Truth value of a list, of a string and of an optional string. *)
Definition nonempty {A} (l : list A) : bool :=
  match l with [] => false | _ :: _ => true end.

Definition str_truthy (s : string) : bool :=
  match s with EmptyString => false | String _ _ => true end.

Definition opt_truthy (o : option string) : bool :=
  match o with Some s => str_truthy s | None => false end.

(** [o == lit] where [o] is [None] or a string. *)
Definition opt_is (o : option string) (lit : string) : bool :=
  match o with Some s => String.eqb s lit | None => false end.

(** [o or <empty string>] *)
Definition or_empty (o : option string) : string :=
  match o with Some s => if str_truthy s then s else "" | None => "" end.

(** ** [is_poll_active] *)

Definition no_poll_xpath : string := "//*[contains(text(), 'No current poll')]".
Definition active_css : string :=
  "button[class*='answer'], .answer-option, button[data-choice]".

(** The list literal [["A", "B"]] of the two membership tests. *)
Definition letter_labels : list string := ["A"; "B"].

Definition is_letter (s : string) : bool := existsb (String.eqb s) letter_labels.

(** The [for button in ...: if button.text.strip() in [...]: append] loop. *)
Fixpoint collect_letter_buttons (bs acc : list WebElement)
  : M (list WebElement) :=
  match bs with
  | [] => ret acc
  | button :: rest =>
      t <- call_text button ;;
      if is_letter (strip t)
      then collect_letter_buttons rest (acc ++ [button])
      else collect_letter_buttons rest acc
  end.

(** The body of the [try] block. *)
Definition is_poll_active_try (d : WebDriver) : M bool :=
  no_poll_elements <- call_find_elements d XPATH no_poll_xpath ;;
  if nonempty no_poll_elements then ret false
  else
    answer_buttons <- call_find_elements d CSS_SELECTOR active_css ;;
    buttons <- call_find_elements d TAG_NAME "button" ;;
    letter_buttons <- collect_letter_buttons buttons [] ;;
    ret ((0 <? List.length answer_buttons) || (0 <? List.length letter_buttons)).

Definition is_poll_active (d : WebDriver) : M bool :=
  try_except any_Exception (is_poll_active_try d) (fun _ => ret false).

(** ** [get_answer_choices] *)

Definition choices_css : string :=
  "button[data-choice], .answer-option, button[class*='answer']".

Definition Choice : Type := (WebElement * string)%type.

(** The loop of the [if not choice_elements] branch. *)
Fixpoint collect_by_text (bs : list WebElement) (choices : list Choice)
  : M (list Choice) :=
  match bs with
  | [] => ret choices
  | button :: rest =>
      t <- call_text button ;;
      let button_text := strip t in
      if is_letter button_text
      then collect_by_text rest (choices ++ [(button, button_text)])
      else collect_by_text rest choices
  end.

(** [element.get_attribute("data-choice") or element.text.strip()]:
    the text is read only when the attribute is missing or empty. *)
Definition choice_id_of (element : WebElement) : M string :=
  a <- call_get_attribute element "data-choice" ;;
  if opt_truthy a then ret (or_empty a)
  else t <- call_text element ;; ret (strip t).

(** The loop of the [else] branch. *)
Fixpoint collect_by_selector (els : list WebElement) (choices : list Choice)
  : M (list Choice) :=
  match els with
  | [] => ret choices
  | element :: rest =>
      choice_id <- choice_id_of element ;;
      if str_truthy choice_id
      then collect_by_selector rest (choices ++ [(element, choice_id)])
      else collect_by_selector rest choices
  end.

Definition get_answer_choices_try (d : WebDriver) : M (list Choice) :=
  choice_elements <- call_find_elements d CSS_SELECTOR choices_css ;;
  if negb (nonempty choice_elements)
  then
    buttons <- call_find_elements d TAG_NAME "button" ;;
    collect_by_text buttons []
  else collect_by_selector choice_elements [].

Definition get_answer_choices (d : WebDriver) : M (list Choice) :=
  try_except any_Exception (get_answer_choices_try d) (fun _ => ret []).

(** ** [select_random_answer] *)

(** [random.choice(seq)] is [seq[randbelow(len(seq))]]; [r] is the value
    drawn, reduced below the length. *)
Definition random_choice {A} (r : nat) (first : A) (others : list A) : A :=
  nth (r mod List.length (first :: others)) (first :: others) first.

Definition select_random_answer (choices : list Choice) (r : nat) : M unit :=
  match choices with
  | [] => ret tt
  | c :: cs =>
      let '(element, choice_id) := random_choice r c cs in
      try_except any_Exception (call_click element) (fun _ => ret tt)
  end.

(** ** [login] *)

(** The loop over the [input] elements; a later match replaces an earlier
    one. *)
Fixpoint scan_inputs (els : list WebElement)
    (username_field password_field : option WebElement)
  : M (option WebElement * option WebElement) :=
  match els with
  | [] => ret (username_field, password_field)
  | element :: rest =>
      input_type <- call_get_attribute element "type" ;;
      ph <- call_get_attribute element "placeholder" ;;
      let placeholder := or_empty ph in
      if opt_is input_type "text"
         || contains "user" (lower placeholder)
         || contains "email" (lower placeholder)
      then scan_inputs rest (Some element) password_field
      else if opt_is input_type "password"
              || contains "password" (lower placeholder)
      then scan_inputs rest username_field (Some element)
      else scan_inputs rest username_field password_field
  end.

(** The loop over the [button] elements. *)
Fixpoint scan_buttons (bs : list WebElement) (login_button : option WebElement)
  : M (option WebElement) :=
  match bs with
  | [] => ret login_button
  | button :: rest =>
      t <- call_text button ;;
      let button_text := lower t in
      if contains "login" button_text
         || contains "sign in" button_text
         || contains "submit" button_text
      then scan_buttons rest (Some button)
      else scan_buttons rest login_button
  end.

Definition login_try (username password : string) (d : WebDriver) : M bool :=
  login_elements <- call_find_elements d TAG_NAME "input" ;;
  fields <- scan_inputs login_elements None None ;;
  buttons <- call_find_elements d TAG_NAME "button" ;;
  login_button <- scan_buttons buttons None ;;
  match fields, login_button with
  | (Some username_field, Some password_field), Some login_button =>
      call_send_keys username_field username ;;;
      call_send_keys password_field password ;;;
      call_click login_button ;;;
      ret true
  | _, _ => ret false
  end.

(** [username] and [password] are [None] when not supplied. *)
Definition login (username password : option string) (d : WebDriver) : M bool :=
  if negb (opt_truthy username && opt_truthy password) then ret false
  else
    try_except Timeout_or_NoSuchElement
      (login_try (or_empty username) (or_empty password) d)
      (fun _ => ret false).

(** ** [run] *)

(** [self]; of [self.driver] the record keeps what its [quit] answers,
    the other calls on it being answered by the pages. *)
Record Automator : Type := {
  url : string;
  check_interval : nat;
  username : option string;
  password : option string;
  session_quit : result unit
}.

(** What one pass of the [while True] loop meets: the page as the browser
    shows it during that pass and the value the generator draws. *)
Record Observation : Type := {
  page : WebDriver;
  draw : nat
}.

(** The body of [while True], from the test of [is_poll_active] up to the
    [time.sleep]; it takes and returns [poll_answered]. *)
Definition loop_body (self : Automator) (o : Observation)
    (poll_answered : bool) : M bool :=
  active <- is_poll_active (page o) ;;
  flag <- (if active then
             if negb poll_answered then
               choices <- get_answer_choices (page o) ;;
               if nonempty choices then
                 select_random_answer choices (draw o) ;;;
                 ret true
               else ret poll_answered
             else ret poll_answered
           else
             if poll_answered then ret false else ret poll_answered) ;;
  call_sleep (check_interval self) ;;;
  ret flag.

(** The passes of the loop over the given observations. *)
Fixpoint loop (self : Automator) (obs : list Observation)
    (poll_answered : bool) : M bool :=
  match obs with
  | [] => ret poll_answered
  | o :: rest =>
      flag <- loop_body self o poll_answered ;;
      loop self rest flag
  end.

(** [run], observed for as many passes of the loop as there are
    observations; [start] is the page met by [driver.get] and [login]. *)
Definition run (self : Automator) (start : WebDriver) (obs : list Observation)
  : M unit :=
  try_finally
    (try_except any_Exception
       (call_get start (url self) ;;;
        login (username self) (password self) start ;;;
        loop self obs false ;;;
        ret tt)
       (fun _ => ret tt))
    (call_quit (session_quit self)).

(** ** Reading traces *)

Definition is_click (ev : event) : bool :=
  match ev with Click _ => true | _ => false end.

Definition is_send_keys (ev : event) : bool :=
  match ev with SendKeys _ _ => true | _ => false end.

Definition is_find (ev : event) : bool :=
  match ev with Find _ _ => true | _ => false end.

(** Number of click attempts in a trace. *)
Definition clicks (t : trace) : nat := List.length (filter is_click t).

(** The elements whose [click] was invoked, in order. *)
Fixpoint clicked (t : trace) : list WebElement :=
  match t with
  | [] => []
  | Click e :: r => e :: clicked r
  | _ :: r => clicked r
  end.

(** The poll state a pass observes: the value [is_poll_active] returns. *)
Definition observed_active (d : WebDriver) : bool :=
  match snd (is_poll_active d) with Ok b => b | Raise _ => false end.

(** The choices a pass would enumerate. *)
Definition enumerated (d : WebDriver) : list Choice :=
  match snd (get_answer_choices d) with Ok l => l | Raise _ => [] end.

(** Did the call recorded by an event answer with an exception? *)
Definition is_raise {A} (r : result A) : bool :=
  match r with Raise _ => true | Ok _ => false end.

Definition raised (d : WebDriver) (ev : event) : bool :=
  match ev with
  | Navigate u => is_raise (driver_get d u)
  | Find b v => is_raise (find_elements d b v)
  | ReadText e => is_raise (el_text e)
  | ReadAttr e n => is_raise (el_get_attribute e n)
  | SendKeys e k => is_raise (el_send_keys e k)
  | Click e => is_raise (el_click e)
  | Sleep _ | Quit => false
  end.

(** No exception inside a computation that returned. *)
Definition clean (d : WebDriver) {A} (m : M A) : Prop :=
  is_raise (snd m) = false -> existsb (raised d) (fst m) = false.

(** Events that only read the page. *)
Definition is_read (ev : event) : bool :=
  match ev with
  | Find _ _ | ReadText _ | ReadAttr _ _ => true
  | _ => false
  end.

Definition only_reads (t : trace) : Prop := forallb is_read t = true.

(** A trace without any [find_elements]. *)
Definition no_finds (t : trace) : Prop := filter is_find t = [].

(** The text of an element whose [text] does not raise. *)
Definition text_of (e : WebElement) : string :=
  match el_text e with Ok s => s | Raise _ => "" end.

Definition readable (e : WebElement) : Prop := el_text e = Ok (text_of e).

(** A button that the label test keeps. *)
Definition letter_button (b : WebElement) : bool := is_letter (strip (text_of b)).

(** ** A fake browser, for concrete pages *)

Fixpoint assoc (n : string) (l : list (string * string)) : option string :=
  match l with
  | [] => None
  | (k, v) :: r => if String.eqb k n then Some v else assoc n r
  end.

(** An element with the given text and attributes, whose methods succeed. *)
Definition element (id : nat) (text : string) (attrs : list (string * string))
  : WebElement :=
  {| el_id := id;
     el_text := Ok text;
     el_get_attribute := fun n => Ok (assoc n attrs);
     el_send_keys := fun _ => Ok tt;
     el_click := Ok tt |}.

(** The same element once it can no longer be clicked. *)
Definition unclickable (x : exn) (e : WebElement) : WebElement :=
  {| el_id := el_id e;
     el_text := el_text e;
     el_get_attribute := el_get_attribute e;
     el_send_keys := el_send_keys e;
     el_click := Raise x |}.

(** A page given by the answers to the four kinds of query of the script. *)
Definition fake_page
    (no_poll : result (list WebElement))
    (by_selector : result (list WebElement))
    (inputs buttons : result (list WebElement)) : WebDriver :=
  {| find_elements := fun b v =>
       match b with
       | XPATH => no_poll
       | CSS_SELECTOR => by_selector
       | TAG_NAME =>
           if String.eqb v "input" then inputs
           else if String.eqb v "button" then buttons
           else Ok []
       end;
     driver_get := fun _ => Ok tt |}.

(** ** Concrete pages *)

(** A page that shows the notice next to two answer buttons. *)
Definition notice_and_buttons : WebDriver :=
  let a := element 1 "A" [("class", "answer-btn")] in
  let b := element 2 "B" [("class", "answer-btn")] in
  fake_page (Ok [element 0 "No current poll" []]) (Ok [a; b]) (Ok []) (Ok [a; b]).

(** A page with an open poll whose buttons carry no class or attribute
    hint; the labels are padded with blanks. *)
Definition plain_buttons_page : WebDriver :=
  fake_page (Ok []) (Ok []) (Ok [])
    (Ok [element 1 " A " []; element 2 "B" []; element 3 "Next" []]).

(** A page on which the selector query fails while a lettered button is
    shown. *)
Definition failing_selector_page : WebDriver :=
  fake_page (Ok []) (Raise WebDriverException) (Ok []) (Ok [element 1 "A" []]).

(** A page whose open poll is marked up with [data-choice] attributes;
    the third marked element has neither attribute value nor text. *)
Definition marked_page : WebDriver :=
  let a := element 1 "Yes" [("data-choice", "A")] in
  let b := element 2 " No " [("class", "answer-option")] in
  let c := element 3 "" [("class", "answer-option")] in
  fake_page (Ok []) (Ok [a; b; c]) (Ok []) (Ok [a; element 4 "B" []]).

(** A page on which the [button] query fails after the selector found
    nothing. *)
Definition failing_buttons_page : WebDriver :=
  fake_page (Ok []) (Ok []) (Ok []) (Raise StaleElementReferenceException).

(** A button that can be seen but not clicked. *)
Definition stuck_button : WebElement :=
  unclickable ElementNotInteractableException (element 1 "A" []).

(** Two choices; clicking the first one fails. *)
Definition two_choices : list Choice :=
  [(stuck_button, "A"); (element 2 "B" [], "B")].

(** ** The loop, summarised *)

(** [poll_answered] after a pass, from its value before the pass. *)
Definition next_flag (o : Observation) (poll_answered : bool) : bool :=
  if observed_active (page o)
  then poll_answered || nonempty (enumerated (page o))
  else false.

(** Does the pass reach [select_random_answer] with a non-empty list? *)
Definition answers (o : Observation) (poll_answered : bool) : bool :=
  observed_active (page o) && negb poll_answered
  && nonempty (enumerated (page o)).

(** Number of changes from inactive to active in a sequence of poll
    states, [prev] being the state before the first one. *)
Fixpoint rising_edges (prev : bool) (states : list bool) : nat :=
  match states with
  | [] => 0
  | s :: rest => (if s && negb prev then 1 else 0) + rising_edges s rest
  end.

(** The poll states a sequence of passes observes. *)
Definition poll_states (obs : list Observation) : list bool :=
  map (fun o => observed_active (page o)) obs.

(** Every pass that sees an active poll can enumerate a choice. *)
Definition choices_when_active (o : Observation) : Prop :=
  observed_active (page o) = true -> enumerated (page o) <> [].

(** [poll_answered] after the passes over [obs]. *)
Fixpoint final_flag (obs : list Observation) (poll_answered : bool) : bool :=
  match obs with
  | [] => poll_answered
  | o :: rest => final_flag rest (next_flag o poll_answered)
  end.

(** Number of passes over [obs] that answer. *)
Fixpoint answer_count (obs : list Observation) (poll_answered : bool) : nat :=
  match obs with
  | [] => 0
  | o :: rest =>
      (if answers o poll_answered then 1 else 0)
      + answer_count rest (next_flag o poll_answered)
  end.

(** A page showing the notice and nothing else. *)
Definition idle_page : WebDriver :=
  fake_page (Ok [element 0 "No current poll" []]) (Ok []) (Ok []) (Ok []).

(** A page with an open poll whose only button cannot be clicked. *)
Definition stuck_page : WebDriver :=
  fake_page (Ok []) (Ok []) (Ok []) (Ok [stuck_button]).

Definition clicker : Automator :=
  {| url := "https://clicker.example/poll";
     check_interval := 5;
     username := None;
     password := None;
     session_quit := Ok tt |}.

(** Five passes: no poll, a poll seen twice, no poll, a new poll. *)
Definition five_passes : list Observation :=
  [ {| page := idle_page; draw := 0 |};
    {| page := plain_buttons_page; draw := 3 |};
    {| page := plain_buttons_page; draw := 1 |};
    {| page := idle_page; draw := 2 |};
    {| page := plain_buttons_page; draw := 4 |} ].

(** Three passes over a poll whose button cannot be clicked. *)
Definition stuck_passes : list Observation :=
  [ {| page := stuck_page; draw := 0 |};
    {| page := stuck_page; draw := 1 |};
    {| page := stuck_page; draw := 2 |} ].

(** ** The login form, summarised *)

(** The value of an attribute that is read without exception. *)
Definition attr_of (e : WebElement) (n : string) : option string :=
  match el_get_attribute e n with Ok a => a | Raise _ => None end.

Definition attrs_readable (e : WebElement) : Prop :=
  el_get_attribute e "type" = Ok (attr_of e "type") /\
  el_get_attribute e "placeholder" = Ok (attr_of e "placeholder").

(** The test of the [if] branch of the loop over the inputs. *)
Definition username_like (e : WebElement) : bool :=
  let placeholder := or_empty (attr_of e "placeholder") in
  opt_is (attr_of e "type") "text"
  || contains "user" (lower placeholder)
  || contains "email" (lower placeholder).

(** The test of the [elif] branch, reached when the first test fails. *)
Definition password_like (e : WebElement) : bool :=
  let placeholder := or_empty (attr_of e "placeholder") in
  negb (username_like e)
  && (opt_is (attr_of e "type") "password"
      || contains "password" (lower placeholder)).

(** The test of the loop over the buttons. *)
Definition login_like (b : WebElement) : bool :=
  let button_text := lower (text_of b) in
  contains "login" button_text
  || contains "sign in" button_text
  || contains "submit" button_text.

(** What a loop that keeps the latest passing element leaves in its
    variable, [found] being the value before the loop. *)
Fixpoint last_match (f : WebElement -> bool) (l : list WebElement)
    (found : option WebElement) : option WebElement :=
  match l with
  | [] => found
  | e :: r => last_match f r (if f e then Some e else found)
  end.

(** The last element of a list that passes a test. *)
Definition last_candidate (f : WebElement -> bool) (l : list WebElement)
  : option WebElement :=
  match rev (filter f l) with
  | x :: _ => Some x
  | [] => None
  end.

(** The calls [login] makes to inspect a page. *)
Definition login_reads (inputs buttons : list WebElement) : trace :=
  Find TAG_NAME "input"
  :: flat_map (fun e => [ReadAttr e "type"; ReadAttr e "placeholder"]) inputs
  ++ Find TAG_NAME "button" :: map ReadText buttons.

(** Events that fill a field or click. *)
Definition is_action (ev : event) : bool := is_send_keys ev || is_click ev.

(** The outcome "not attempted": [False], nothing filled, nothing clicked. *)
Definition not_attempted (m : M bool) : Prop :=
  snd m = Ok false /\ filter is_action (fst m) = [].

(** A form is ambiguous when one of its three elements does not have
    exactly one candidate. *)
Definition ambiguous (inputs buttons : list WebElement) : Prop :=
  List.length (filter username_like inputs) <> 1 \/
  List.length (filter password_like inputs) <> 1 \/
  List.length (filter login_like buttons) <> 1.

(** A login form with two text inputs. *)
Definition first_name_input : WebElement :=
  element 1 "" [("type", "text"); ("placeholder", "First name")].
Definition email_input : WebElement :=
  element 2 "" [("type", "text"); ("placeholder", "Email")].
Definition password_input : WebElement :=
  element 3 "" [("type", "password")].
Definition sign_in_button : WebElement := element 4 "Sign In" [].

Definition two_text_inputs_page : WebDriver :=
  fake_page (Ok []) (Ok [])
    (Ok [first_name_input; email_input; password_input])
    (Ok [sign_in_button]).

(** A page without any form: a notice and one unrelated button. *)
Definition no_form_page : WebDriver :=
  fake_page (Ok [element 0 "No current poll" []]) (Ok []) (Ok [])
    (Ok [element 5 "Help" []]).

Definition member : Automator :=
  {| url := "https://clicker.example/poll";
     check_interval := 5;
     username := Some "ann";
     password := Some "secret";
     session_quit := Ok tt |}.

(** ** More ways to read a trace *)

Definition is_quit (ev : event) : bool :=
  match ev with Quit => true | _ => false end.

Definition is_sleep (ev : event) : bool :=
  match ev with Sleep _ => true | _ => false end.

(** What a pass of the loop may do: read the page, click, sleep. *)
Definition is_loop_event (ev : event) : bool :=
  is_read ev || is_click ev || is_sleep ev.

(** What [login] may do: read the page, fill a field, click. *)
Definition is_login_event (ev : event) : bool := is_read ev || is_action ev.

(** ** Labels of the selector strategy *)

(** The label [get_answer_choices] gives an element found by the selector:
    the [data-choice] attribute when it is a non-empty string, else the
    trimmed text. *)
Definition label_of (e : WebElement) : string :=
  if opt_truthy (attr_of e "data-choice")
  then or_empty (attr_of e "data-choice")
  else strip (text_of e).

(** The calls made on an element to compute its label. *)
Definition label_reads (e : WebElement) : trace :=
  ReadAttr e "data-choice"
  :: (if opt_truthy (attr_of e "data-choice") then [] else [ReadText e]).

(** The calls needed for the label are answered without exception. *)
Definition label_readable (e : WebElement) : Prop :=
  el_get_attribute e "data-choice" = Ok (attr_of e "data-choice") /\
  (opt_truthy (attr_of e "data-choice") = false -> readable e).

(** ** [__init__]: building the options and starting Chrome

    The machine the script runs on is given by what it answers:
    [platform.system()], [os.path.exists], each call of
    [webdriver.Chrome] (a session handle, or nothing when the call
    raises) and whether the [subprocess] sequence that asks Chrome for its
    version completes.  Both [try] blocks catch [Exception], so the class
    of what is raised plays no part. *)

Record ChromeOptions : Type := {
  arguments : list string;
  binary_location : string
}.

Record Host : Type := {
  host_system : string;
  path_exists : string -> bool;
  start_chrome : nat -> ChromeOptions -> option nat;
  version_probe : string -> bool
}.

Inductive host_event : Type :=
| PathExists (path : string)
| StartChrome (attempt : nat) (options : ChromeOptions)
| Shell (cmd : string).

Definition mac_chrome_paths : list string :=
  ["/Applications/Google Chrome.app/Contents/MacOS/Google Chrome";
   "/Applications/Chrome.app/Contents/MacOS/Chrome"].

(** The [add_argument] calls, in order. *)
Definition chrome_arguments (headless : bool) : list string :=
  (if headless then ["--headless=new"] else [])
  ++ ["--disable-gpu"; "--window-size=1920,1080"; "--disable-extensions";
      "--disable-notifications"; "--disable-popup-blocking"].

(** [for path in chrome_paths: if os.path.exists(path): ...; break];
    the result is [binary_location], which starts as the empty string. *)
Fixpoint find_binary (h : Host) (paths : list string)
  : list host_event * string :=
  match paths with
  | [] => ([], "")
  | path :: rest =>
      if path_exists h path then ([PathExists path], path)
      else let (t, b) := find_binary h rest in (PathExists path :: t, b)
  end.

Definition is_darwin (h : Host) : bool := String.eqb (host_system h) "Darwin".

(** The options as they stand when Chrome is first started. *)
Definition prepare_options (h : Host) (headless : bool)
  : list host_event * ChromeOptions :=
  let (t, b) := if is_darwin h then find_binary h mac_chrome_paths
                else ([], "") in
  (t, {| arguments := chrome_arguments headless; binary_location := b |}).

(** The command of the version probe. *)
Definition version_command (options : ChromeOptions) : string :=
  let chrome_path :=
    if str_truthy (binary_location options) then binary_location options
    else "/Applications/Google Chrome.app/Contents/MacOS/Google Chrome" in
  ("'" ++ chrome_path ++ "' --version")%string.

(** The part of [__init__] that obtains [self.driver]: the session handle,
    or nothing when [__init__] raises "Could not initialize Chrome
    driver". *)
Definition start_driver (h : Host) (headless : bool)
  : list host_event * option nat :=
  let (t, options) := prepare_options h headless in
  match start_chrome h 0 options with
  | Some s => (t ++ [StartChrome 0 options], Some s)
  | None =>
      if is_darwin h then
        if version_probe h (version_command options)
        then (t ++ [StartChrome 0 options; Shell (version_command options);
                    StartChrome 1 options],
              start_chrome h 1 options)
        else (t ++ [StartChrome 0 options; Shell (version_command options)],
              None)
      else (t ++ [StartChrome 0 options; StartChrome 1 options],
            start_chrome h 1 options)
  end.

Definition is_start (ev : host_event) : bool :=
  match ev with StartChrome _ _ => true | _ => false end.

Definition is_shell (ev : host_event) : bool :=
  match ev with Shell _ => true | _ => false end.

(** The paths probed, in order. *)
Fixpoint probed (t : list host_event) : list string :=
  match t with
  | [] => []
  | PathExists p :: r => p :: probed r
  | _ :: r => probed r
  end.

(** ** More concrete pages and hosts *)

(** A login form whose first input has gone stale. *)
Definition stale_input : WebElement :=
  {| el_id := 1;
     el_text := Ok "";
     el_get_attribute := fun _ => Raise StaleElementReferenceException;
     el_send_keys := fun _ => Ok tt;
     el_click := Ok tt |}.

Definition stale_form_page : WebDriver :=
  fake_page (Ok []) (Ok []) (Ok [stale_input; password_input])
    (Ok [sign_in_button]).

(** A page whose navigation fails. *)
Definition unreachable_page : WebDriver :=
  {| find_elements := fun _ _ => Ok [];
     driver_get := fun _ => Raise WebDriverException |}.

(** A poll marked up by class only, whose options have no text yet. *)
Definition unlabelled_page : WebDriver :=
  let a := element 1 "" [("class", "answer-option")] in
  let b := element 2 "  " [("class", "answer-option")] in
  fake_page (Ok []) (Ok [a; b]) (Ok []) (Ok []).

(** A poll with options C and D on plain buttons. *)
Definition late_letters_page : WebDriver :=
  fake_page (Ok []) (Ok []) (Ok [])
    (Ok [element 1 "C" []; element 2 "D" []]).

(** Two passes over a poll without labels, then the labelled poll. *)
Definition waiting_passes : list Observation :=
  [ {| page := unlabelled_page; draw := 0 |};
    {| page := unlabelled_page; draw := 1 |} ].

(** A Mac with Chrome in the first location, where the first start fails
    and the version probe fails too. *)
Definition broken_mac : Host :=
  {| host_system := "Darwin";
     path_exists := fun p => String.eqb p (hd "" mac_chrome_paths);
     start_chrome := fun n _ => if n =? 0 then None else Some 7;
     version_probe := fun _ => false |}.

(** A Linux machine where only the second start succeeds. *)
Definition slow_linux : Host :=
  {| host_system := "Linux";
     path_exists := fun _ => true;
     start_chrome := fun n _ => if n =? 0 then None else Some 7;
     version_probe := fun _ => true |}.

(** A pass over the poll marked up with [data-choice]. *)
Definition marked_pass : Observation := {| page := marked_page; draw := 1 |}.

(** A Linux machine where Chrome starts at once. *)
Definition ready_linux : Host :=
  {| host_system := "Linux";
     path_exists := fun _ => false;
     start_chrome := fun _ _ => Some 3;
     version_probe := fun _ => true |}.

(** What a pass does before it sleeps: read the page and click. *)
Definition is_pass_work (ev : event) : bool := is_read ev || is_click ev.

(** ** Texts with whitespace beyond ASCII *)

(** U+00A0, the no-break space, and U+2003, the em space, in UTF-8. *)
Definition nbsp : string :=
  String (ascii_of_nat 194) (String (ascii_of_nat 160) EmptyString).
Definition em_space : string :=
  String (ascii_of_nat 226)
    (String (ascii_of_nat 128) (String (ascii_of_nat 131) EmptyString)).

(** A button labelled A between two no-break spaces. *)
Definition padded_button : WebElement :=
  element 1 (String.append nbsp (String.append "A" nbsp)) [].

Definition padded_button_page : WebDriver :=
  fake_page (Ok []) (Ok []) (Ok []) (Ok [padded_button]).

(** An option found by the selector whose text is a single em space. *)
Definition blank_option : WebElement :=
  element 1 em_space [("class", "answer-option")].

Definition blank_option_page : WebDriver :=
  fake_page (Ok []) (Ok [blank_option]) (Ok []) (Ok []).

(** An automator whose session fails to close. *)
Definition unclosable : Automator :=
  {| url := "https://clicker.example/poll";
     check_interval := 5;
     username := None;
     password := None;
     session_quit := Raise WebDriverException |}.

(** * Properties *)

(** ** The computation monad *)

Lemma fst_bind {A B} (m : M A) (f : A -> M B) :
  fst (bind m f) =
  fst m ++ match snd m with Ok a => fst (f a) | Raise _ => [] end.
Proof.
  destruct m as [t [a|e]]; simpl.
  - destruct (f a); reflexivity.
  - now rewrite app_nil_r.
Qed.

Lemma snd_bind {A B} (m : M A) (f : A -> M B) :
  snd (bind m f) =
  match snd m with Ok a => snd (f a) | Raise e => Raise e end.
Proof.
  destruct m as [t [a|e]]; simpl; [destruct (f a)|]; reflexivity.
Qed.

Lemma bind_Ok {A B} t (a : A) (f : A -> M B) :
  bind (t, Ok a) f = (t ++ fst (f a), snd (f a)).
Proof. simpl. destruct (f a); reflexivity. Qed.

Lemma try_except_any_ok {A} (m : M A) (v : A) :
  try_except any_Exception m (fun _ => ret v) =
  (fst m, Ok match snd m with Ok a => a | Raise _ => v end).
Proof.
  destruct m as [t [a|e]]; simpl; [|rewrite app_nil_r]; reflexivity.
Qed.

Lemma only_reads_app t u : only_reads t -> only_reads u -> only_reads (t ++ u).
Proof. unfold only_reads. rewrite forallb_app. now intros -> ->. Qed.

Lemma only_reads_bind {A B} (m : M A) (f : A -> M B) :
  only_reads (fst m) -> (forall a, only_reads (fst (f a))) ->
  only_reads (fst (bind m f)).
Proof.
  intros Hm Hf. rewrite fst_bind. apply only_reads_app; [exact Hm|].
  destruct (snd m); [apply Hf|reflexivity].
Qed.

Lemma clicks_app t u : clicks (t ++ u) = clicks t + clicks u.
Proof. unfold clicks. now rewrite filter_app, length_app. Qed.

Lemma only_reads_clicks t : only_reads t -> clicks t = 0.
Proof.
  unfold only_reads, clicks. induction t as [|ev t IH]; simpl; [reflexivity|].
  intros H. apply andb_true_iff in H as [Hev Ht].
  destruct ev; simpl in *; try discriminate; auto.
Qed.

Lemma clean_bind d {A B} (m : M A) (f : A -> M B) :
  clean d m -> (forall a, clean d (f a)) -> clean d (bind m f).
Proof.
  unfold clean. intros Hm Hf. rewrite fst_bind, snd_bind, existsb_app.
  destruct (snd m) as [a|e]; simpl; [|discriminate].
  intros H. rewrite Hm by reflexivity. now apply Hf.
Qed.

Lemma clean_ret d {A} (a : A) : clean d (ret a).
Proof. now intros _. Qed.

Lemma clean_if d {A} (c : bool) (m1 m2 : M A) :
  clean d m1 -> clean d m2 -> clean d (if c then m1 else m2).
Proof. now destruct c. Qed.

Lemma clean_find d b v : clean d (call_find_elements d b v).
Proof. unfold clean; simpl. now intros ->. Qed.

Lemma clean_text d e : clean d (call_text e).
Proof. unfold clean; simpl. now intros ->. Qed.

Lemma clean_attr d e n : clean d (call_get_attribute e n).
Proof. unfold clean; simpl. now intros ->. Qed.

Create HintDb clean.
#[local] Hint Resolve clean_ret clean_find clean_text clean_attr : clean.

(** ** [is_poll_active] *)

Lemma collect_letter_buttons_reads bs acc :
  only_reads (fst (collect_letter_buttons bs acc)).
Proof.
  revert acc. induction bs as [|b bs IH]; intros acc;
    cbn [collect_letter_buttons]; [reflexivity|].
  apply only_reads_bind; [reflexivity|]. intros t.
  destruct (is_letter (strip t)); apply IH.
Qed.

Lemma collect_letter_buttons_clean d bs acc :
  clean d (collect_letter_buttons bs acc).
Proof.
  revert acc. induction bs as [|b bs IH]; intros acc;
    cbn [collect_letter_buttons]; auto with clean.
  apply clean_bind; auto with clean. intros t. apply clean_if; apply IH.
Qed.

Lemma collect_letter_buttons_readable bs acc :
  Forall readable bs ->
  collect_letter_buttons bs acc =
  (map ReadText bs, Ok (acc ++ filter letter_button bs)).
Proof.
  intros H. revert acc.
  induction H as [|b bs Hb _ IH]; intros acc; cbn [collect_letter_buttons].
  - unfold ret. now rewrite app_nil_r.
  - unfold call_text. rewrite Hb, bind_Ok. cbn [filter map].
    unfold letter_button at 1.
    destruct (is_letter (strip (text_of b))); rewrite IH; simpl;
      [rewrite <- app_assoc|]; reflexivity.
Qed.

Lemma is_poll_active_try_reads d : only_reads (fst (is_poll_active_try d)).
Proof.
  unfold is_poll_active_try.
  apply only_reads_bind; [reflexivity|]. intros l.
  destruct (nonempty l); [reflexivity|].
  apply only_reads_bind; [reflexivity|]. intros l1.
  apply only_reads_bind; [reflexivity|]. intros l2.
  apply only_reads_bind; [apply collect_letter_buttons_reads|]. reflexivity.
Qed.

Lemma is_poll_active_try_clean d : clean d (is_poll_active_try d).
Proof.
  unfold is_poll_active_try.
  apply clean_bind; auto with clean. intros l.
  apply clean_if; auto with clean.
  apply clean_bind; auto with clean. intros l1.
  apply clean_bind; auto with clean. intros l2.
  apply clean_bind; auto with clean. apply collect_letter_buttons_clean.
Qed.

Lemma is_poll_active_eq d :
  is_poll_active d = (fst (is_poll_active_try d), Ok (observed_active d)).
Proof.
  unfold observed_active, is_poll_active. rewrite try_except_any_ok. reflexivity.
Qed.

Lemma is_poll_active_reads d : only_reads (fst (is_poll_active d)).
Proof. rewrite is_poll_active_eq. apply is_poll_active_try_reads. Qed.

(** C2: when the query for the text "No current poll" finds an element,
    [is_poll_active] returns [False], whatever the page answers to any other
    query; the text query is the only call made on the browser. *)
Theorem is_poll_active_no_poll_short_circuit :
  forall (d : WebDriver) (e : WebElement) (l : list WebElement),
    find_elements d XPATH no_poll_xpath = Ok (e :: l) ->
    is_poll_active d = ([Find XPATH no_poll_xpath], Ok false).
Proof.
  intros d e l H.
  unfold is_poll_active, is_poll_active_try, call_find_elements.
  rewrite H. reflexivity.
Qed.

Lemma is_poll_active_no_poll_short_circuit_witness :
  is_poll_active notice_and_buttons = ([Find XPATH no_poll_xpath], Ok false).
Proof.
  apply (is_poll_active_no_poll_short_circuit notice_and_buttons
           (element 0 "No current poll" []) []).
  reflexivity.
Defined.

Lemma filter_nonempty_Exists {A} (f : A -> bool) (l : list A) :
  Exists (fun x => f x = true) l -> (0 <? List.length (filter f l)) = true.
Proof.
  induction 1 as [x l Hx|x l _ IH]; simpl.
  - now rewrite Hx.
  - destruct (f x); [reflexivity|exact IH].
Qed.

(** C3: on a page whose queries and texts are answered without exception,
    where the text query for "No current poll" finds nothing and either the
    answer-choice selector finds an element or some button has a trimmed
    text among the recognized labels, [is_poll_active] returns [True]. *)
Theorem is_poll_active_detects_choices :
  forall (d : WebDriver) (by_selector buttons : list WebElement),
    find_elements d XPATH no_poll_xpath = Ok [] ->
    find_elements d CSS_SELECTOR active_css = Ok by_selector ->
    find_elements d TAG_NAME "button" = Ok buttons ->
    Forall readable buttons ->
    by_selector <> [] \/
      Exists (fun b => In (strip (text_of b)) letter_labels) buttons ->
    snd (is_poll_active d) = Ok true.
Proof.
  intros d sel bs Hx Hc Hb Hr Hsome.
  rewrite is_poll_active_eq. cbn [snd]. f_equal.
  unfold observed_active, is_poll_active. rewrite try_except_any_ok. cbn [snd].
  unfold is_poll_active_try, call_find_elements.
  rewrite Hx, bind_Ok. cbn [nonempty snd].
  rewrite Hc, bind_Ok. cbn [snd]. rewrite Hb, bind_Ok. cbn [snd].
  rewrite (collect_letter_buttons_readable bs [] Hr), bind_Ok. cbn [snd ret app].
  destruct Hsome as [Hsel|Hlet].
  - destruct sel; [contradiction|reflexivity].
  - rewrite (filter_nonempty_Exists letter_button bs), orb_true_r; [reflexivity|].
    eapply Exists_impl; [|exact Hlet]. intros b Hin.
    unfold letter_button, is_letter. apply existsb_exists.
    exists (strip (text_of b)). split; [exact Hin|apply String.eqb_refl].
Qed.

Lemma is_poll_active_detects_choices_witness :
  snd (is_poll_active plain_buttons_page) = Ok true.
Proof.
  apply (is_poll_active_detects_choices plain_buttons_page []
           [element 1 " A " []; element 2 "B" []; element 3 "Next" []]);
    try reflexivity.
  - repeat constructor.
  - right. apply Exists_cons_hd. simpl. left. reflexivity.
Defined.

(** C4: [is_poll_active] always returns a boolean, it never raises; and
    whenever one of the calls it made on the browser raised, the boolean
    is [False]. *)
Theorem is_poll_active_never_raises :
  forall d : WebDriver,
    (exists b, snd (is_poll_active d) = Ok b) /\
    (existsb (raised d) (fst (is_poll_active d)) = true ->
     snd (is_poll_active d) = Ok false).
Proof.
  intros d. rewrite is_poll_active_eq. cbn [fst snd]. split; [eauto|].
  intros H. f_equal. unfold observed_active, is_poll_active.
  rewrite try_except_any_ok. cbn [snd].
  pose proof (is_poll_active_try_clean d) as Hc. unfold clean in Hc.
  destruct (snd (is_poll_active_try d)) as [b|e]; [|reflexivity].
  rewrite Hc in H by reflexivity. discriminate.
Qed.

Lemma is_poll_active_never_raises_witness :
  existsb (raised failing_selector_page)
    (fst (is_poll_active failing_selector_page)) = true /\
  snd (is_poll_active failing_selector_page) = Ok false.
Proof.
  split; [reflexivity|].
  apply (is_poll_active_never_raises failing_selector_page). reflexivity.
Defined.

(** ** [get_answer_choices] *)

Lemma no_finds_bind {A B} (m : M A) (f : A -> M B) :
  no_finds (fst m) -> (forall a, no_finds (fst (f a))) ->
  no_finds (fst (bind m f)).
Proof.
  unfold no_finds. intros Hm Hf. rewrite fst_bind, filter_app, Hm.
  destruct (snd m); [apply Hf|reflexivity].
Qed.

Lemma choice_id_of_no_finds e : no_finds (fst (choice_id_of e)).
Proof.
  unfold choice_id_of. apply no_finds_bind; [reflexivity|]. intros a.
  destruct (opt_truthy a); [reflexivity|].
  apply no_finds_bind; reflexivity.
Qed.

Lemma collect_by_selector_no_finds els acc :
  no_finds (fst (collect_by_selector els acc)).
Proof.
  revert acc. induction els as [|e els IH]; intros acc;
    cbn [collect_by_selector]; [reflexivity|].
  apply no_finds_bind; [apply choice_id_of_no_finds|]. intros s.
  destruct (str_truthy s); apply IH.
Qed.

Lemma collect_by_selector_labels els acc :
  Forall (fun c : Choice => snd c <> "") acc ->
  Forall (fun c : Choice => snd c <> "")
    (match snd (collect_by_selector els acc) with Ok l => l | Raise _ => [] end).
Proof.
  revert acc. induction els as [|e els IH]; intros acc Hacc;
    cbn [collect_by_selector]; [exact Hacc|].
  rewrite snd_bind. destruct (snd (choice_id_of e)) as [s|x]; [|constructor].
  destruct s as [|c s]; cbn [str_truthy]; apply IH; [exact Hacc|].
  apply Forall_app. split; [exact Hacc|]. constructor; [discriminate|constructor].
Qed.

Lemma collect_by_text_readable bs acc :
  Forall readable bs ->
  collect_by_text bs acc =
  (map ReadText bs,
   Ok (acc ++ map (fun b => (b, strip (text_of b))) (filter letter_button bs))).
Proof.
  intros H. revert acc.
  induction H as [|b bs Hb _ IH]; intros acc; cbn [collect_by_text].
  - unfold ret. now rewrite app_nil_r.
  - unfold call_text. rewrite Hb, bind_Ok. cbn [filter map].
    unfold letter_button at 1.
    destruct (is_letter (strip (text_of b))); rewrite IH; simpl;
      [rewrite <- app_assoc|]; reflexivity.
Qed.

Lemma choice_id_of_clean d e : clean d (choice_id_of e).
Proof.
  unfold choice_id_of. apply clean_bind; auto with clean. intros a.
  apply clean_if; auto with clean. apply clean_bind; auto with clean.
Qed.

Lemma collect_by_selector_clean d els acc : clean d (collect_by_selector els acc).
Proof.
  revert acc. induction els as [|e els IH]; intros acc;
    cbn [collect_by_selector]; auto with clean.
  apply clean_bind; [apply choice_id_of_clean|]. intros s.
  apply clean_if; apply IH.
Qed.

Lemma collect_by_text_clean d bs acc : clean d (collect_by_text bs acc).
Proof.
  revert acc. induction bs as [|b bs IH]; intros acc;
    cbn [collect_by_text]; auto with clean.
  apply clean_bind; auto with clean. intros t. apply clean_if; apply IH.
Qed.

Lemma get_answer_choices_try_clean d : clean d (get_answer_choices_try d).
Proof.
  unfold get_answer_choices_try. apply clean_bind; auto with clean. intros l.
  apply clean_if; [|apply collect_by_selector_clean].
  apply clean_bind; auto with clean. intros bs. apply collect_by_text_clean.
Qed.

Lemma collect_by_text_reads bs acc : only_reads (fst (collect_by_text bs acc)).
Proof.
  revert acc. induction bs as [|b bs IH]; intros acc;
    cbn [collect_by_text]; [reflexivity|].
  apply only_reads_bind; [reflexivity|]. intros t.
  destruct (is_letter (strip t)); apply IH.
Qed.

Lemma collect_by_selector_reads els acc :
  only_reads (fst (collect_by_selector els acc)).
Proof.
  revert acc. induction els as [|e els IH]; intros acc;
    cbn [collect_by_selector]; [reflexivity|].
  apply only_reads_bind.
  - unfold choice_id_of. apply only_reads_bind; [reflexivity|]. intros a.
    destruct (opt_truthy a); [reflexivity|].
    apply only_reads_bind; reflexivity.
  - intros s. destruct (str_truthy s); apply IH.
Qed.

Lemma get_answer_choices_eq d :
  get_answer_choices d = (fst (get_answer_choices_try d), Ok (enumerated d)).
Proof.
  unfold enumerated, get_answer_choices. rewrite try_except_any_ok. reflexivity.
Qed.

Lemma get_answer_choices_reads d : only_reads (fst (get_answer_choices d)).
Proof.
  rewrite get_answer_choices_eq. cbn [fst]. unfold get_answer_choices_try.
  apply only_reads_bind; [reflexivity|]. intros l.
  destruct (negb (nonempty l)); [|apply collect_by_selector_reads].
  apply only_reads_bind; [reflexivity|]. intros bs. apply collect_by_text_reads.
Qed.

Lemma is_letter_iff s : is_letter s = true <-> s = "A" \/ s = "B".
Proof.
  unfold is_letter, letter_labels. cbn [existsb].
  rewrite !orb_true_iff, !String.eqb_eq. intuition discriminate.
Qed.

(** C7: [get_answer_choices] queries the buttons by tag only when the
    selector query found nothing; the fallback keeps, in order, exactly the
    buttons whose trimmed text is "A" or "B", paired with that text; no
    pair of the selector strategy has an empty label; and the call always
    returns a list, which is empty when nothing is found or when a call on
    the browser raised. *)
Theorem get_answer_choices_strategies :
  forall d : WebDriver,
    (find_elements d CSS_SELECTOR choices_css <> Ok [] ->
     filter is_find (fst (get_answer_choices d)) =
       [Find CSS_SELECTOR choices_css]) /\
    (forall e l,
        find_elements d CSS_SELECTOR choices_css = Ok (e :: l) ->
        Forall (fun c : Choice => snd c <> "") (enumerated d)) /\
    (forall buttons,
        find_elements d CSS_SELECTOR choices_css = Ok [] ->
        find_elements d TAG_NAME "button" = Ok buttons ->
        Forall readable buttons ->
        snd (get_answer_choices d) =
          Ok (map (fun b => (b, strip (text_of b)))
                (filter letter_button buttons))) /\
    (forall b, letter_button b = true <->
               strip (text_of b) = "A" \/ strip (text_of b) = "B") /\
    snd (get_answer_choices d) = Ok (enumerated d) /\
    (existsb (raised d) (fst (get_answer_choices d)) = true ->
     snd (get_answer_choices d) = Ok []).
Proof.
  intros d. split; [|split; [|split; [|split; [|split]]]].
  - intros H. rewrite get_answer_choices_eq. cbn [fst].
    unfold get_answer_choices_try, call_find_elements.
    destruct (find_elements d CSS_SELECTOR choices_css) as [[|e l]|x];
      [contradiction| |reflexivity].
    rewrite bind_Ok. cbn [nonempty negb fst app filter is_find].
    now rewrite collect_by_selector_no_finds.
  - intros e l H. unfold enumerated, get_answer_choices.
    rewrite try_except_any_ok. cbn [snd].
    unfold get_answer_choices_try, call_find_elements.
    rewrite H, bind_Ok. cbn [nonempty negb snd].
    pose proof (collect_by_selector_labels (e :: l) [] (Forall_nil _)) as HF.
    destruct (snd (collect_by_selector (e :: l) [])); [exact HF|constructor].
  - intros buttons Hc Hb Hr. rewrite get_answer_choices_eq. cbn [snd]. f_equal.
    unfold enumerated, get_answer_choices. rewrite try_except_any_ok. cbn [snd].
    unfold get_answer_choices_try, call_find_elements.
    rewrite Hc, bind_Ok. cbn [nonempty negb snd]. rewrite Hb, bind_Ok. cbn [snd].
    rewrite (collect_by_text_readable buttons [] Hr). reflexivity.
  - intros b. apply is_letter_iff.
  - rewrite get_answer_choices_eq. reflexivity.
  - rewrite get_answer_choices_eq. cbn [fst snd]. intros H. f_equal.
    unfold enumerated, get_answer_choices. rewrite try_except_any_ok. cbn [snd].
    pose proof (get_answer_choices_try_clean d) as Hc. unfold clean in Hc.
    destruct (snd (get_answer_choices_try d)); [|reflexivity].
    rewrite Hc in H by reflexivity. discriminate.
Qed.

Lemma get_answer_choices_strategies_witness :
  filter is_find (fst (get_answer_choices marked_page)) =
    [Find CSS_SELECTOR choices_css] /\
  Forall (fun c : Choice => snd c <> "") (enumerated marked_page) /\
  snd (get_answer_choices plain_buttons_page) =
    Ok [(element 1 " A " [], "A"); (element 2 "B" [], "B")] /\
  snd (get_answer_choices failing_buttons_page) = Ok [].
Proof.
  split; [|split; [|split]].
  - destruct (get_answer_choices_strategies marked_page) as (H & _).
    apply H. discriminate.
  - destruct (get_answer_choices_strategies marked_page) as (_ & H & _).
    eapply H. reflexivity.
  - destruct (get_answer_choices_strategies plain_buttons_page)
      as (_ & _ & H & _).
    apply (H [element 1 " A " []; element 2 "B" []; element 3 "Next" []]);
      try reflexivity.
    repeat constructor.
  - destruct (get_answer_choices_strategies failing_buttons_page)
      as (_ & _ & _ & _ & _ & H).
    apply H. reflexivity.
Defined.

(** The selector strategy on [marked_page]: the attribute value when there
    is one, else the trimmed text, and no pair for the element with neither. *)
Example get_answer_choices_marked_page :
  map snd (enumerated marked_page) = ["A"; "No"].
Proof. reflexivity. Qed.

(** ** [select_random_answer] *)

Lemma select_random_answer_eq choices r :
  select_random_answer choices r = (fst (select_random_answer choices r), Ok tt).
Proof.
  destruct choices as [|c cs]; [reflexivity|].
  unfold select_random_answer. destruct (random_choice r c cs) as [el id].
  rewrite try_except_any_ok. cbn [fst]. f_equal. f_equal.
  now destruct (snd (call_click el)) as [[]|].
Qed.

Lemma random_choice_In {A} r (c : A) cs : In (random_choice r c cs) (c :: cs).
Proof.
  unfold random_choice. apply nth_In.
  apply Nat.mod_upper_bound. discriminate.
Qed.

(** C5: on a non-empty list of choices, [select_random_answer] invokes
    [click] exactly once, on the element of a pair of the list. *)
Theorem select_random_answer_clicks_member :
  forall (choices : list Choice) (r : nat),
    choices <> [] ->
    exists c : Choice,
      In c choices /\
      fst (select_random_answer choices r) = [Click (fst c)] /\
      clicks (fst (select_random_answer choices r)) = 1.
Proof.
  intros [|c cs] r H; [contradiction|].
  exists (random_choice r c cs). split; [apply random_choice_In|].
  unfold select_random_answer.
  destruct (random_choice r c cs) as [el id].
  rewrite try_except_any_ok. split; reflexivity.
Qed.

Lemma select_random_answer_clicks_member_witness :
  exists c : Choice,
    In c two_choices /\
    fst (select_random_answer two_choices 5) = [Click (fst c)] /\
    clicks (fst (select_random_answer two_choices 5)) = 1.
Proof.
  apply (select_random_answer_clicks_member two_choices 5). discriminate.
Defined.

(** C6: on the empty list [select_random_answer] makes no call on the
    browser and returns; on every list it returns normally, also when the
    [click] it invoked raised. *)
Theorem select_random_answer_never_raises :
  (forall r : nat, select_random_answer [] r = ([], Ok tt)) /\
  (forall (choices : list Choice) (r : nat),
      snd (select_random_answer choices r) = Ok tt).
Proof.
  split; [reflexivity|].
  intros choices r. now rewrite select_random_answer_eq.
Qed.

(** A draw that picks the choice whose [click] raises: the click is tried
    and the call returns. *)
Example select_random_answer_failed_click :
  el_click stuck_button = Raise ElementNotInteractableException /\
  select_random_answer two_choices 4 = ([Click stuck_button], Ok tt).
Proof. split; reflexivity. Qed.

(** ** The main loop *)

Lemma loop_body_eq self o flag :
  loop_body self o flag =
  (fst (is_poll_active (page o)) ++
   (if observed_active (page o) && negb flag
    then fst (get_answer_choices (page o)) ++
         fst (select_random_answer (enumerated (page o)) (draw o))
    else []) ++ [Sleep (check_interval self)],
   Ok (next_flag o flag)).
Proof.
  unfold loop_body, next_flag.
  rewrite (is_poll_active_eq (page o)), bind_Ok. cbn [fst snd].
  destruct (observed_active (page o)), flag; cbn [negb andb orb];
    try reflexivity.
  rewrite (get_answer_choices_eq (page o)). cbn [fst].
  destruct (enumerated (page o)) as [|c cs] eqn:E.
  - cbn. now rewrite !app_nil_r.
  - rewrite bind_Ok. cbn [nonempty].
    rewrite (select_random_answer_eq (c :: cs)), !bind_Ok. cbn.
    rewrite !app_nil_r, <- !app_assoc. reflexivity.
Qed.

Lemma select_random_answer_clicks choices r :
  clicks (fst (select_random_answer choices r)) =
  if nonempty choices then 1 else 0.
Proof.
  destruct choices as [|c cs]; [reflexivity|].
  unfold select_random_answer. destruct (random_choice r c cs) as [el id].
  now rewrite try_except_any_ok.
Qed.

Lemma loop_body_flag self o flag :
  snd (loop_body self o flag) = Ok (next_flag o flag).
Proof. now rewrite loop_body_eq. Qed.

Lemma loop_body_clicks self o flag :
  clicks (fst (loop_body self o flag)) = if answers o flag then 1 else 0.
Proof.
  rewrite loop_body_eq. cbn [fst]. rewrite !clicks_app.
  rewrite (only_reads_clicks _ (is_poll_active_reads (page o))).
  unfold answers.
  destruct (observed_active (page o) && negb flag); [|reflexivity].
  rewrite clicks_app, (only_reads_clicks _ (get_answer_choices_reads (page o))).
  rewrite select_random_answer_clicks. cbn [andb].
  destruct (nonempty (enumerated (page o))); reflexivity.
Qed.

Lemma loop_flag self obs flag :
  snd (loop self obs flag) = Ok (final_flag obs flag).
Proof.
  revert flag. induction obs as [|o obs IH]; intros flag; cbn [loop final_flag];
    [reflexivity|].
  now rewrite snd_bind, loop_body_flag, IH.
Qed.

Lemma loop_clicks self obs flag :
  clicks (fst (loop self obs flag)) = answer_count obs flag.
Proof.
  revert flag. induction obs as [|o obs IH]; intros flag;
    cbn [loop answer_count]; [reflexivity|].
  now rewrite fst_bind, loop_body_flag, clicks_app, loop_body_clicks, IH.
Qed.

Lemma next_flag_when_choices o flag :
  choices_when_active o -> next_flag o flag = observed_active (page o).
Proof.
  unfold choices_when_active, next_flag. intros H.
  destruct (observed_active (page o)); [|reflexivity].
  destruct (enumerated (page o)); [now destruct H|apply orb_true_r].
Qed.

Lemma answers_when_choices o flag :
  choices_when_active o -> answers o flag = observed_active (page o) && negb flag.
Proof.
  unfold choices_when_active, answers. intros H.
  destruct (observed_active (page o)); [|reflexivity].
  destruct (enumerated (page o)); [now destruct H|apply andb_true_r].
Qed.

Lemma last_cons_default {A} (x : A) l d d' : last (x :: l) d = last (x :: l) d'.
Proof.
  revert x. induction l as [|y l IH]; intros x; [reflexivity|].
  change (last (y :: l) d = last (y :: l) d'). apply IH.
Qed.

Lemma final_flag_last obs flag :
  Forall choices_when_active obs ->
  final_flag obs flag = last (poll_states obs) flag.
Proof.
  intros H. revert flag. induction H as [|o obs Ho _ IH]; intros flag;
    [reflexivity|].
  cbn [final_flag]. rewrite IH, (next_flag_when_choices o flag Ho).
  unfold poll_states. cbn [map]. destruct obs as [|o' obs]; [reflexivity|].
  cbn [map]. rewrite (last_cons_default _ _ _ flag). reflexivity.
Qed.

Lemma answer_count_rising obs flag :
  Forall choices_when_active obs ->
  answer_count obs flag = rising_edges flag (poll_states obs).
Proof.
  intros H. revert flag. induction H as [|o obs Ho _ IH]; intros flag;
    [reflexivity|].
  cbn [answer_count]. unfold poll_states. cbn [map rising_edges].
  now rewrite IH, (next_flag_when_choices o flag Ho),
    (answers_when_choices o flag Ho).
Qed.

(** C1: over passes in which an active poll always has a choice to
    enumerate, a pass leaves [poll_answered] equal to the poll state it
    observed and clicks exactly when that state is active and the flag was
    not set; so after any passes the flag is the last observed state, the
    number of click attempts is the number of changes from inactive to
    active, and the states inactive, active, active, inactive, active give
    2 click attempts. *)
Theorem answered_flag_follows_poll_state :
  forall (self : Automator) (obs : list Observation),
    Forall choices_when_active obs ->
    (forall o flag, In o obs ->
        snd (loop_body self o flag) = Ok (observed_active (page o)) /\
        clicks (fst (loop_body self o flag)) =
          if observed_active (page o) && negb flag then 1 else 0) /\
    snd (loop self obs false) = Ok (last (poll_states obs) false) /\
    clicks (fst (loop self obs false)) = rising_edges false (poll_states obs) /\
    (poll_states obs = [false; true; true; false; true] ->
     clicks (fst (loop self obs false)) = 2).
Proof.
  intros self obs H. split; [|split; [|split]].
  - intros o flag Hin.
    assert (Ho : choices_when_active o)
      by (rewrite Forall_forall in H; now apply H).
    rewrite loop_body_flag, loop_body_clicks.
    now rewrite (next_flag_when_choices o flag Ho),
      (answers_when_choices o flag Ho).
  - now rewrite loop_flag, final_flag_last.
  - now rewrite loop_clicks, answer_count_rising.
  - intros Hs. now rewrite loop_clicks, answer_count_rising, Hs.
Qed.

Lemma answered_flag_follows_poll_state_witness :
  poll_states five_passes = [false; true; true; false; true] /\
  snd (loop_body clicker {| page := idle_page; draw := 2 |} true) = Ok false /\
  snd (loop clicker five_passes false) = Ok true /\
  clicks (fst (loop clicker five_passes false)) = 2.
Proof.
  assert (H : Forall choices_when_active five_passes)
    by (repeat apply Forall_cons; try apply Forall_nil;
        intros Ha; vm_compute in Ha; try discriminate Ha;
        vm_compute; discriminate).
  destruct (answered_flag_follows_poll_state clicker five_passes H)
    as (Hstep & Hflag & _ & Hclicks).
  split; [reflexivity|]. split; [|split].
  - apply (Hstep {| page := idle_page; draw := 2 |} true).
    simpl. right. right. right. left. reflexivity.
  - exact Hflag.
  - apply Hclicks. reflexivity.
Defined.

Lemma answered_stays_answered obs :
  Forall (fun o => observed_active (page o) = true) obs ->
  final_flag obs true = true /\ answer_count obs true = 0.
Proof.
  induction 1 as [|o obs Ho _ IH]; [split; reflexivity|].
  cbn [final_flag answer_count]. unfold next_flag, answers.
  rewrite Ho. cbn [orb negb andb]. exact IH.
Qed.

(** C10: a pass that sees an active poll, not yet answered, with at least
    one choice leaves [poll_answered] set, whatever the [click] inside
    [select_random_answer] did; over the following passes that still see
    the poll active no further click is attempted. *)
Theorem failed_click_is_not_retried :
  forall (self : Automator) (o : Observation) (rest : list Observation),
    observed_active (page o) = true ->
    enumerated (page o) <> [] ->
    Forall (fun o' => observed_active (page o') = true) rest ->
    snd (loop_body self o false) = Ok true /\
    clicks (fst (loop_body self o false)) = 1 /\
    snd (loop self (o :: rest) false) = Ok true /\
    clicks (fst (loop self (o :: rest) false)) = 1.
Proof.
  intros self o rest Ha Hc Hrest.
  assert (Hn : nonempty (enumerated (page o)) = true)
    by (destruct (enumerated (page o)); [contradiction|reflexivity]).
  assert (Hf : next_flag o false = true)
    by (unfold next_flag; now rewrite Ha, Hn).
  assert (Hans : answers o false = true)
    by (unfold answers; now rewrite Ha, Hn).
  destruct (answered_stays_answered rest Hrest) as [Hff Hac].
  rewrite loop_body_flag, loop_body_clicks, loop_flag, loop_clicks.
  cbn [final_flag answer_count]. rewrite Hf, Hans, Hff, Hac. auto.
Qed.

Lemma failed_click_is_not_retried_witness :
  existsb (raised stuck_page) (fst (loop clicker stuck_passes false)) = true /\
  snd (loop clicker stuck_passes false) = Ok true /\
  clicks (fst (loop clicker stuck_passes false)) = 1.
Proof.
  split; [reflexivity|].
  apply (failed_click_is_not_retried clicker
           {| page := stuck_page; draw := 0 |}
           [ {| page := stuck_page; draw := 1 |};
             {| page := stuck_page; draw := 2 |} ]).
  - reflexivity.
  - discriminate.
  - repeat constructor.
Defined.

(** ** [login] *)

(** C8: when the username or the password is absent, [login] returns
    [False] at once, without any call on the browser. *)
Theorem login_skips_without_credentials :
  forall (username password : option string) (d : WebDriver),
    username = None \/ password = None ->
    login username password d = ([], Ok false).
Proof.
  intros username password d [-> | ->]; unfold login; cbn [opt_truthy andb negb].
  - reflexivity.
  - now rewrite andb_false_r.
Qed.

Lemma login_skips_without_credentials_witness :
  login (Some "ann") None two_text_inputs_page = ([], Ok false).
Proof.
  apply (login_skips_without_credentials (Some "ann") None two_text_inputs_page).
  right. reflexivity.
Defined.

(** An empty string counts as absent as well. *)
Example login_skips_empty_username :
  login (Some "") (Some "secret") two_text_inputs_page = ([], Ok false).
Proof. reflexivity. Qed.

Lemma last_match_rev f l found :
  last_match f l found =
  match rev (filter f l) with x :: _ => Some x | [] => found end.
Proof.
  revert found. induction l as [|e l IH]; intros found; [reflexivity|].
  cbn [last_match filter]. rewrite IH.
  destruct (f e); [|reflexivity].
  cbn [rev]. now destruct (rev (filter f l)).
Qed.

Lemma last_match_candidate f l : last_match f l None = last_candidate f l.
Proof. apply last_match_rev. Qed.

Lemma last_candidate_none f l : filter f l = [] -> last_candidate f l = None.
Proof. unfold last_candidate. now intros ->. Qed.

Lemma scan_inputs_readable els u p :
  Forall attrs_readable els ->
  scan_inputs els u p =
  (flat_map (fun e => [ReadAttr e "type"; ReadAttr e "placeholder"]) els,
   Ok (last_match username_like els u, last_match password_like els p)).
Proof.
  intros H. revert u p.
  induction H as [|e els [Ht Hp] _ IH]; intros u p; [reflexivity|].
  cbn [scan_inputs flat_map last_match]. unfold call_get_attribute.
  rewrite Ht, bind_Ok. cbn [fst snd]. rewrite Hp, bind_Ok. cbn [fst snd].
  pose proof (eq_refl (username_like e)) as Eu.
  unfold username_like at 1 in Eu. cbv zeta in Eu. rewrite Eu.
  pose proof (eq_refl (password_like e)) as Ep.
  unfold password_like at 1 in Ep. cbv zeta in Ep.
  destruct (username_like e); cbn [negb andb] in Ep.
  - rewrite <- Ep, IH. reflexivity.
  - rewrite Ep. destruct (password_like e); rewrite IH; reflexivity.
Qed.

Lemma scan_buttons_readable bs found :
  Forall readable bs ->
  scan_buttons bs found = (map ReadText bs, Ok (last_match login_like bs found)).
Proof.
  intros H. revert found.
  induction H as [|b bs Hb _ IH]; intros found; [reflexivity|].
  cbn [scan_buttons map last_match]. unfold call_text.
  rewrite Hb, bind_Ok.
  pose proof (eq_refl (login_like b)) as Eb.
  unfold login_like at 1 in Eb. cbv zeta in Eb. rewrite Eb.
  destruct (login_like b); rewrite IH; reflexivity.
Qed.

(** What [login_try] finds on a page that is read without exception. *)
Lemma login_try_readable user pass d inputs buttons :
  find_elements d TAG_NAME "input" = Ok inputs ->
  find_elements d TAG_NAME "button" = Ok buttons ->
  Forall attrs_readable inputs ->
  Forall readable buttons ->
  login_try user pass d =
  bind (login_reads inputs buttons,
        Ok (last_candidate username_like inputs,
            last_candidate password_like inputs,
            last_candidate login_like buttons))
    (fun found =>
       match found with
       | (Some username_field, Some password_field, Some login_button) =>
           call_send_keys username_field user ;;;
           call_send_keys password_field pass ;;;
           call_click login_button ;;;
           ret true
       | _ => ret false
       end).
Proof.
  intros Hi Hb Hri Hrb. unfold login_try, call_find_elements.
  rewrite Hi, bind_Ok, (scan_inputs_readable inputs None None Hri), bind_Ok.
  cbn [fst snd]. rewrite Hb, bind_Ok. cbn [fst snd].
  rewrite (scan_buttons_readable buttons None Hrb), !bind_Ok. cbn [fst snd].
  rewrite !last_match_candidate. unfold login_reads.
  destruct (last_candidate username_like inputs),
    (last_candidate password_like inputs),
    (last_candidate login_like buttons); cbn [fst snd];
    f_equal; cbn [app]; rewrite <- ?app_assoc; cbn [app];
    rewrite ?app_nil_r; reflexivity.
Qed.

Lemma only_reads_no_action t : only_reads t -> filter is_action t = [].
Proof.
  unfold only_reads. induction t as [|ev t IH]; [reflexivity|].
  cbn [forallb filter]. intros H. apply andb_true_iff in H as [Hev Ht].
  destruct ev; try discriminate; cbn; auto.
Qed.

Lemma login_reads_only_reads inputs buttons :
  only_reads (login_reads inputs buttons).
Proof.
  unfold only_reads, login_reads. cbn [forallb is_read andb].
  rewrite forallb_app. cbn [forallb is_read andb].
  apply andb_true_iff. split.
  - induction inputs as [|e l IH]; [reflexivity|exact IH].
  - induction buttons as [|b l IH]; [reflexivity|exact IH].
Qed.

(** [run] once [driver.get] and [login] have returned: the loop is entered
    and the session is closed at the end. *)
Lemma try_finally_quit (m : M unit) (q : result unit) :
  try_finally (try_except any_Exception m (fun _ => ret tt)) (call_quit q) =
  (fst m ++ [Quit], q).
Proof.
  rewrite try_except_any_ok. cbn [try_finally call_quit].
  now destruct q as [[]|e], (snd m) as [[]|x].
Qed.

Lemma run_after_login self start obs t b :
  driver_get start (url self) = Ok tt ->
  login (username self) (password self) start = (t, Ok b) ->
  run self start obs =
  (Navigate (url self) :: t ++ fst (loop self obs false) ++ [Quit],
   session_quit self).
Proof.
  intros Hg Hl. unfold run. rewrite try_finally_quit. f_equal.
  unfold call_get. rewrite Hg, bind_Ok, Hl, bind_Ok.
  cbn [fst snd]. rewrite (surjective_pairing (loop self obs false)), loop_flag.
  rewrite bind_Ok. cbn. now rewrite app_nil_r, <- app_assoc.
Qed.

(** C9, the claim as stated fails: on a form with two text inputs the
    username field is ambiguous, yet [login] fills the fields and clicks. *)
Lemma login_fills_ambiguous_form :
  find_elements two_text_inputs_page TAG_NAME "input" =
    Ok [first_name_input; email_input; password_input] /\
  find_elements two_text_inputs_page TAG_NAME "button" = Ok [sign_in_button] /\
  ambiguous [first_name_input; email_input; password_input] [sign_in_button] /\
  ~ not_attempted (login (Some "ann") (Some "secret") two_text_inputs_page) /\
  filter is_action (fst (login (Some "ann") (Some "secret") two_text_inputs_page))
  = [SendKeys email_input "ann"; SendKeys password_input "secret";
     Click sign_in_button].
Proof.
  split; [reflexivity|]. split; [reflexivity|]. split; [|split].
  - left. vm_compute. discriminate.
  - intros [H _]. vm_compute in H. discriminate.
  - reflexivity.
Qed.

(** C9, amended: on a page that is read without exception, when no input
    is taken as username field (it passes the first test), or none is taken
    as password field (it fails the first test and passes the second), or no
    button passes the login test, [login] returns [False] after its reads,
    fills nothing and clicks nothing, and [run] goes on to its loop.  When
    each of the three has at least one candidate, even several, [login]
    takes the last candidate of each and starts to fill: its first action
    is to type the username into the last username candidate; and when the
    two [send_keys] and the [click] do not raise, these three calls are all
    it does after its reads and it returns [True]. *)
Theorem login_takes_last_candidates :
  forall (user pass : string) (d : WebDriver)
         (inputs buttons : list WebElement),
    user <> "" -> pass <> "" ->
    find_elements d TAG_NAME "input" = Ok inputs ->
    find_elements d TAG_NAME "button" = Ok buttons ->
    Forall attrs_readable inputs ->
    Forall readable buttons ->
    (filter username_like inputs = [] \/
     filter password_like inputs = [] \/
     filter login_like buttons = [] ->
     login (Some user) (Some pass) d = (login_reads inputs buttons, Ok false) /\
     not_attempted (login (Some user) (Some pass) d) /\
     forall self obs,
       username self = Some user -> password self = Some pass ->
       driver_get d (url self) = Ok tt ->
       run self d obs =
       (Navigate (url self)
          :: login_reads inputs buttons ++ fst (loop self obs false) ++ [Quit],
        session_quit self)) /\
    (forall u p b,
        last_candidate username_like inputs = Some u ->
        last_candidate password_like inputs = Some p ->
        last_candidate login_like buttons = Some b ->
        (exists rest,
            fst (login (Some user) (Some pass) d) =
            login_reads inputs buttons ++ SendKeys u user :: rest) /\
        (el_send_keys u user = Ok tt ->
         el_send_keys p pass = Ok tt ->
         el_click b = Ok tt ->
         login (Some user) (Some pass) d =
         (login_reads inputs buttons
            ++ [SendKeys u user; SendKeys p pass; Click b],
          Ok true))).
Proof.
  intros user pass d inputs buttons Hu Hp Hi Hb Hri Hrb.
  assert (Hlogin : login (Some user) (Some pass) d =
                   try_except Timeout_or_NoSuchElement
                     (login_try user pass d) (fun _ => ret false)).
  { unfold login. destruct user; [contradiction|].
    destruct pass; [contradiction|]. reflexivity. }
  rewrite Hlogin, (login_try_readable user pass d inputs buttons Hi Hb Hri Hrb).
  rewrite bind_Ok. split.
  - intros Hzero.
    assert (E : forall A (k : M A) (k' : WebElement -> WebElement -> WebElement -> M A),
               match (last_candidate username_like inputs,
                      last_candidate password_like inputs,
                      last_candidate login_like buttons) with
               | (Some x, Some y, Some z) => k' x y z
               | _ => k
               end = k).
    { intros A k k'.
      destruct Hzero as [H|[H|H]]; rewrite (last_candidate_none _ _ H);
        repeat match goal with |- context [match ?o with _ => _ end] =>
                 destruct o end; reflexivity. }
    rewrite E. cbn [ret fst snd try_except]. rewrite app_nil_r.
    split; [reflexivity|]. split.
    + split; [reflexivity|].
      apply only_reads_no_action, login_reads_only_reads.
    + intros self obs Hsu Hsp Hg.
      apply (run_after_login self d obs _ false); [exact Hg|].
      rewrite Hsu, Hsp, Hlogin,
        (login_try_readable user pass d inputs buttons Hi Hb Hri Hrb).
      rewrite bind_Ok, E. cbn [ret fst snd try_except]. now rewrite app_nil_r.
  - intros u p b -> -> ->. cbn [fst snd]. unfold call_send_keys, call_click.
    split.
    + generalize (login_reads inputs buttons) as reads. intros reads.
      destruct (el_send_keys u user) as [[]|x1];
        [destruct (el_send_keys p pass) as [[]|x2];
         [destruct (el_click b) as [[]|x3]|]|];
        cbn;
        repeat match goal with
               | |- context [Timeout_or_NoSuchElement ?x] =>
                   destruct (Timeout_or_NoSuchElement x); cbn
               end;
        rewrite <- ?app_assoc; cbn [app]; eexists; reflexivity.
    + intros Hsu Hsp Hc. rewrite Hsu, Hsp, Hc. reflexivity.
Qed.

Lemma login_takes_last_candidates_witness :
  (not_attempted (login (Some "ann") (Some "secret") no_form_page) /\
   run member no_form_page five_passes =
   (Navigate (url member)
      :: login_reads [] [element 5 "Help" []]
      ++ fst (loop member five_passes false) ++ [Quit],
    Ok tt)) /\
  (exists rest,
      fst (login (Some "ann") (Some "secret") two_text_inputs_page) =
      login_reads [first_name_input; email_input; password_input]
        [sign_in_button]
      ++ SendKeys email_input "ann" :: rest) /\
  login (Some "ann") (Some "secret") two_text_inputs_page =
  (login_reads [first_name_input; email_input; password_input] [sign_in_button]
     ++ [SendKeys email_input "ann"; SendKeys password_input "secret";
         Click sign_in_button],
   Ok true).
Proof.
  split.
  - assert (Hr : Forall readable [element 5 "Help" []])
      by (repeat constructor).
    destruct (login_takes_last_candidates "ann" "secret" no_form_page
                [] [element 5 "Help" []]
                ltac:(discriminate) ltac:(discriminate)
                eq_refl eq_refl (Forall_nil _) Hr) as [H _].
    destruct H as (_ & Hn & Hrun); [left; reflexivity|].
    split; [exact Hn|]. apply (Hrun member five_passes); reflexivity.
  - assert (Ha : Forall attrs_readable
                   [first_name_input; email_input; password_input])
      by (repeat constructor).
    assert (Hr : Forall readable [sign_in_button]) by (repeat constructor).
    destruct (login_takes_last_candidates "ann" "secret" two_text_inputs_page
                [first_name_input; email_input; password_input]
                [sign_in_button]
                ltac:(discriminate) ltac:(discriminate)
                eq_refl eq_refl Ha Hr) as [_ H].
    destruct (H email_input password_input sign_in_button
                eq_refl eq_refl eq_refl) as [H1 H2].
    split; [exact H1|]. apply H2; reflexivity.
Defined.

(** The password test is only reached by an input that fails the username
    test: a single input of type password whose placeholder mentions the
    user is taken as username field, no password field is found and
    nothing is filled. *)
Example login_password_input_taken_as_username :
  let field := element 1 "" [("type", "password");
                             ("placeholder", "User password")] in
  let form := fake_page (Ok []) (Ok []) (Ok [field]) (Ok [sign_in_button]) in
  username_like field = true /\ password_like field = false /\
  login (Some "ann") (Some "secret") form =
    (login_reads [field] [sign_in_button], Ok false).
Proof. repeat split. Qed.

(** When the username field refuses the keys with an exception that
    [login] does not catch, [login] raises after that single action. *)
Example login_raises_while_filling :
  let field := {| el_id := 1;
                  el_text := Ok "";
                  el_get_attribute := el_get_attribute email_input;
                  el_send_keys := fun _ => Raise ElementNotInteractableException;
                  el_click := Ok tt |} in
  let form := fake_page (Ok []) (Ok []) (Ok [field; password_input])
                (Ok [sign_in_button]) in
  login (Some "ann") (Some "secret") form =
    (login_reads [field; password_input] [sign_in_button]
       ++ [SendKeys field "ann"],
     Raise ElementNotInteractableException).
Proof. reflexivity. Qed.

(** * Further properties *)

(** ** Traces made of events of one kind *)

Lemma all_bind (P : event -> bool) {A B} (m : M A) (f : A -> M B) :
  forallb P (fst m) = true -> (forall a, forallb P (fst (f a)) = true) ->
  forallb P (fst (bind m f)) = true.
Proof.
  intros Hm Hf. rewrite fst_bind, forallb_app, Hm.
  destruct (snd m); [apply Hf|reflexivity].
Qed.

Lemma only_reads_all (P : event -> bool) t :
  (forall ev, is_read ev = true -> P ev = true) ->
  only_reads t -> forallb P t = true.
Proof.
  intros HP. unfold only_reads. induction t as [|ev t IH]; [reflexivity|].
  cbn [forallb]. intros H. apply andb_true_iff in H as [Hev Ht].
  now rewrite (HP ev Hev), IH.
Qed.

Lemma all_mono (P Q : event -> bool) t :
  (forall ev, P ev = true -> Q ev = true) ->
  forallb P t = true -> forallb Q t = true.
Proof.
  intros HPQ. induction t as [|ev t IH]; [reflexivity|].
  cbn [forallb]. intros H. apply andb_true_iff in H as [Hev Ht].
  now rewrite (HPQ ev Hev), IH.
Qed.

Lemma all_no_filter (P Q : event -> bool) t :
  (forall ev, P ev = true -> Q ev = false) ->
  forallb P t = true -> filter Q t = [].
Proof.
  intros HPQ. induction t as [|ev t IH]; [reflexivity|].
  cbn [forallb filter]. intros H. apply andb_true_iff in H as [Hev Ht].
  now rewrite (HPQ ev Hev), IH.
Qed.

(** ** What [login] touches *)

Lemma scan_inputs_reads els u p : only_reads (fst (scan_inputs els u p)).
Proof.
  revert u p. induction els as [|e els IH]; intros u p;
    cbn [scan_inputs]; [reflexivity|].
  apply only_reads_bind; [reflexivity|]. intros a.
  apply only_reads_bind; [reflexivity|]. intros ph.
  repeat match goal with |- context [if ?c then _ else _] => destruct c end;
    apply IH.
Qed.

Lemma scan_buttons_reads bs found : only_reads (fst (scan_buttons bs found)).
Proof.
  revert found. induction bs as [|b bs IH]; intros found;
    cbn [scan_buttons]; [reflexivity|].
  apply only_reads_bind; [reflexivity|]. intros t.
  match goal with |- context [if ?c then _ else _] => destruct c end; apply IH.
Qed.

Lemma login_try_events user pass d :
  forallb is_login_event (fst (login_try user pass d)) = true.
Proof.
  assert (R : forall t, only_reads t -> forallb is_login_event t = true).
  { intros t. apply only_reads_all. intros ev H.
    unfold is_login_event. now rewrite H. }
  unfold login_try.
  apply all_bind; [reflexivity|]. intros inputs.
  apply all_bind; [apply R, scan_inputs_reads|]. intros [u p].
  apply all_bind; [reflexivity|]. intros buttons.
  apply all_bind; [apply R, scan_buttons_reads|]. intros b.
  destruct u, p, b; try reflexivity.
  repeat (apply all_bind; [reflexivity|]; intros _). reflexivity.
Qed.

Lemma login_events username password d :
  forallb is_login_event (fst (login username password d)) = true.
Proof.
  unfold login. destruct (negb _); [reflexivity|].
  pose proof (login_try_events (or_empty username) (or_empty password) d) as H.
  unfold try_except.
  destruct (login_try (or_empty username) (or_empty password) d) as [t [b|e]];
    [exact H|].
  destruct (Timeout_or_NoSuchElement e); [|exact H].
  cbn [ret fst]. now rewrite app_nil_r.
Qed.

(** ** What the loop touches *)

Lemma loop_body_events self o flag :
  forallb is_loop_event (fst (loop_body self o flag)) = true.
Proof.
  assert (R : forall t, only_reads t -> forallb is_loop_event t = true).
  { intros t. apply only_reads_all. intros ev H.
    unfold is_loop_event. now rewrite H. }
  rewrite loop_body_eq. cbn [fst]. rewrite !forallb_app.
  rewrite (R _ (is_poll_active_reads (page o))). cbn [andb forallb].
  rewrite andb_true_r.
  destruct (observed_active (page o) && negb flag); [|reflexivity].
  rewrite forallb_app, (R _ (get_answer_choices_reads (page o))). cbn [andb].
  destruct (enumerated (page o)) as [|c cs]; [reflexivity|].
  unfold select_random_answer. destruct (random_choice (draw o) c cs) as [el id].
  now rewrite try_except_any_ok.
Qed.

Lemma loop_events self obs flag :
  forallb is_loop_event (fst (loop self obs flag)) = true.
Proof.
  revert flag. induction obs as [|o obs IH]; intros flag; cbn [loop];
    [reflexivity|].
  apply all_bind; [apply loop_body_events|]. intros f. apply IH.
Qed.

(** ** [run]: the session is always closed *)

(** X1: whether [driver.get] and [login] return or raise, and after any
    number of observed passes, [run] calls [driver.quit] exactly once, as
    its last call on the browser, and returns or raises as that call does:
    no other exception leaves [run]. *)
Theorem run_closes_session_once :
  forall (self : Automator) (start : WebDriver) (obs : list Observation),
    snd (run self start obs) = session_quit self /\
    exists t, fst (run self start obs) = t ++ [Quit] /\ filter is_quit t = [].
Proof.
  intros self start obs. unfold run. rewrite try_finally_quit.
  split; [reflexivity|]. eexists. split; [reflexivity|].
  apply (all_no_filter (fun ev => negb (is_quit ev))).
  { intros ev H. now destruct (is_quit ev). }
  apply all_bind; [reflexivity|]. intros _.
  apply all_bind.
  { eapply all_mono; [|apply login_events]. now intros []. }
  intros _. apply all_bind; [|reflexivity].
  eapply all_mono; [|apply loop_events]. now intros [].
Qed.

(** A session that fails to close: the exception of [driver.quit] is the
    one thing that leaves [run]. *)
Example run_raises_what_quit_raises :
  snd (run unclosable idle_page five_passes) = Raise WebDriverException /\
  snd (run clicker unreachable_page five_passes) = Ok tt.
Proof. split; reflexivity. Qed.

(** X2: when [driver.get] raises, [run] makes no other call than
    [driver.quit]; when [login] raises, [run] closes the session without
    entering its loop; in both cases [run] ends as [driver.quit] does. *)
Theorem run_skips_loop_when_startup_raises :
  forall (self : Automator) (start : WebDriver) (obs : list Observation),
    (forall e, driver_get start (url self) = Raise e ->
       run self start obs = ([Navigate (url self); Quit], session_quit self)) /\
    (forall t e,
       driver_get start (url self) = Ok tt ->
       login (username self) (password self) start = (t, Raise e) ->
       run self start obs =
       (Navigate (url self) :: t ++ [Quit], session_quit self)).
Proof.
  intros self start obs. split.
  - intros e H. unfold run. rewrite try_finally_quit. f_equal.
    unfold call_get. rewrite H. reflexivity.
  - intros t e Hg Hl. unfold run. rewrite try_finally_quit. f_equal.
    unfold call_get. rewrite Hg, bind_Ok, Hl. reflexivity.
Qed.

Lemma run_skips_loop_when_startup_raises_witness :
  run member unreachable_page five_passes =
    ([Navigate (url member); Quit], Ok tt) /\
  run member stale_form_page five_passes =
    ([Navigate (url member); Find TAG_NAME "input";
      ReadAttr stale_input "type"; Quit], Ok tt).
Proof.
  destruct (run_skips_loop_when_startup_raises member unreachable_page
              five_passes) as [H1 _].
  destruct (run_skips_loop_when_startup_raises member stale_form_page
              five_passes) as [_ H2].
  split.
  - apply (H1 WebDriverException). reflexivity.
  - apply (H2 [Find TAG_NAME "input"; ReadAttr stale_input "type"]
              StaleElementReferenceException); reflexivity.
Defined.

(** ** What a successful [login] has done *)

Lemma scan_inputs_found els :
  forall u p t u' p',
    scan_inputs els u p = (t, Ok (u', p')) ->
    (u' = u \/ exists e, u' = Some e /\ In e els /\ username_like e = true) /\
    (p' = p \/ exists e, p' = Some e /\ In e els /\ password_like e = true).
Proof.
  induction els as [|e els IH]; intros u p t u' p' H.
  - injection H as _ <- <-. auto.
  - cbn [scan_inputs] in H. unfold call_get_attribute in H.
    destruct (el_get_attribute e "type") as [a|x] eqn:Ht; [|discriminate H].
    rewrite bind_Ok in H. cbn [fst snd] in H.
    destruct (el_get_attribute e "placeholder") as [ph|x] eqn:Hp;
      [|discriminate H].
    rewrite bind_Ok in H. cbn [fst snd] in H.
    assert (Eu : username_like e =
                 opt_is a "text" || contains "user" (lower (or_empty ph))
                 || contains "email" (lower (or_empty ph)))
      by (unfold username_like, attr_of; now rewrite Ht, Hp).
    assert (Ep : password_like e =
                 negb (username_like e)
                 && (opt_is a "password"
                     || contains "password" (lower (or_empty ph))))
      by (unfold password_like, attr_of; now rewrite Ht, Hp).
    rewrite <- Eu in H.
    destruct (username_like e) eqn:Hu; cbn [negb andb] in Ep.
    + injection H as _ H.
      destruct (scan_inputs els (Some e) p) as [t2 r2] eqn:E.
      cbn [snd] in H. subst r2.
      destruct (IH _ _ _ _ _ E) as [[->|(y & -> & Hin & Hy)] Hpw]; split.
      * right. exists e. cbn [In]. auto.
      * destruct Hpw as [->|(z & -> & Hz & Hz')]; [auto|].
        right. exists z. cbn [In]. auto.
      * right. exists y. cbn [In]. auto.
      * destruct Hpw as [->|(z & -> & Hz & Hz')]; [auto|].
        right. exists z. cbn [In]. auto.
    + rewrite <- Ep in H. injection H as _ H.
      destruct (password_like e) eqn:Hpl.
      * destruct (scan_inputs els u (Some e)) as [t2 r2] eqn:E.
        cbn [snd] in H. subst r2.
        destruct (IH _ _ _ _ _ E) as [Hun [->|(z & -> & Hz & Hz')]]; split.
        -- destruct Hun as [->|(y & -> & Hy & Hy')]; [auto|].
           right. exists y. cbn [In]. auto.
        -- right. exists e. cbn [In]. auto.
        -- destruct Hun as [->|(y & -> & Hy & Hy')]; [auto|].
           right. exists y. cbn [In]. auto.
        -- right. exists z. cbn [In]. auto.
      * destruct (scan_inputs els u p) as [t2 r2] eqn:E.
        cbn [snd] in H. subst r2.
        destruct (IH _ _ _ _ _ E) as [Hun Hpw]; split.
        -- destruct Hun as [->|(y & -> & Hy & Hy')]; [auto|].
           right. exists y. cbn [In]. auto.
        -- destruct Hpw as [->|(z & -> & Hz & Hz')]; [auto|].
           right. exists z. cbn [In]. auto.
Qed.

Lemma scan_buttons_found bs :
  forall found t found',
    scan_buttons bs found = (t, Ok found') ->
    found' = found \/
    exists b, found' = Some b /\ In b bs /\ login_like b = true.
Proof.
  induction bs as [|b bs IH]; intros found t found' H.
  - injection H as _ <-. auto.
  - cbn [scan_buttons] in H. unfold call_text in H.
    destruct (el_text b) as [s|x] eqn:Hs; [|discriminate H].
    rewrite bind_Ok in H. cbn [fst snd] in H.
    assert (Eb : login_like b =
                 contains "login" (lower s) || contains "sign in" (lower s)
                 || contains "submit" (lower s))
      by (unfold login_like, text_of; now rewrite Hs).
    rewrite <- Eb in H. injection H as _ H.
    destruct (login_like b) eqn:Hb.
    + destruct (scan_buttons bs (Some b)) as [t2 r2] eqn:E.
      cbn [snd] in H. subst r2.
      destruct (IH _ _ _ E) as [->|(y & -> & Hy & Hy')].
      * right. exists b. cbn [In]. auto.
      * right. exists y. cbn [In]. auto.
    + destruct (scan_buttons bs found) as [t2 r2] eqn:E.
      cbn [snd] in H. subst r2.
      destruct (IH _ _ _ E) as [->|(y & -> & Hy & Hy')]; [auto|].
      right. exists y. cbn [In]. auto.
Qed.

(** X3: [login] returns [True] only after it has typed the username into
    an input of the page that passes the username test, the password into
    another input that passes the password test, and clicked a button whose
    text passes the login test, in that order and without any of the three
    calls raising; these are its only actions. *)
Theorem login_success_means_form_filled :
  forall (username password : option string) (d : WebDriver),
    snd (login username password d) = Ok true ->
    exists inputs buttons uf pf b,
      find_elements d TAG_NAME "input" = Ok inputs /\
      find_elements d TAG_NAME "button" = Ok buttons /\
      In uf inputs /\ username_like uf = true /\
      In pf inputs /\ password_like pf = true /\ uf <> pf /\
      In b buttons /\ login_like b = true /\
      filter is_action (fst (login username password d)) =
        [SendKeys uf (or_empty username); SendKeys pf (or_empty password);
         Click b] /\
      el_send_keys uf (or_empty username) = Ok tt /\
      el_send_keys pf (or_empty password) = Ok tt /\
      el_click b = Ok tt.
Proof.
  intros username password d. unfold login.
  destruct (negb (opt_truthy username && opt_truthy password));
    [discriminate|].
  set (user := or_empty username). set (pass := or_empty password).
  unfold try_except.
  destruct (login_try user pass d) as [t [r|e]] eqn:E; cbn [fst snd];
    [|destruct (Timeout_or_NoSuchElement e); discriminate].
  intros H. injection H as ->.
  unfold login_try, call_find_elements in E.
  destruct (find_elements d TAG_NAME "input") as [inputs|x] eqn:Hi;
    [|discriminate E].
  rewrite bind_Ok in E.
  pose proof (scan_inputs_reads inputs None None) as Hr1.
  destruct (scan_inputs inputs None None) as [t1 [[u p]|x]] eqn:Es;
    [|discriminate E].
  rewrite bind_Ok in E. cbn [fst snd] in E, Hr1.
  destruct (find_elements d TAG_NAME "button") as [buttons|x] eqn:Hb;
    [|discriminate E].
  rewrite bind_Ok in E.
  pose proof (scan_buttons_reads buttons None) as Hr2.
  destruct (scan_buttons buttons None) as [t2 [lb|x]] eqn:Eb;
    [|discriminate E].
  rewrite bind_Ok in E. cbn [fst snd] in E, Hr2.
  destruct (scan_inputs_found _ _ _ _ _ _ Es)
    as [[->|(uf & -> & Huin & Hu)] [Hp|(pf & -> & Hpin & Hp)]];
    try (subst p); try (destruct lb; discriminate E).
  destruct (scan_buttons_found _ _ _ _ Eb) as [->|(b & -> & Hbin & Hbl)];
    [discriminate E|].
  unfold call_send_keys, call_click in E.
  destruct (el_send_keys uf user) as [[]|x] eqn:Hsu; [|discriminate E].
  rewrite bind_Ok in E.
  destruct (el_send_keys pf pass) as [[]|x] eqn:Hsp; [|discriminate E].
  rewrite bind_Ok in E.
  destruct (el_click b) as [[]|x] eqn:Hc; [|discriminate E].
  rewrite bind_Ok in E. cbn [fst snd ret] in E. injection E as <-.
  exists inputs, buttons, uf, pf, b.
  split; [reflexivity|]. split; [reflexivity|].
  split; [exact Huin|]. split; [exact Hu|].
  split; [exact Hpin|]. split; [exact Hp|].
  split.
  { intros ->. unfold password_like in Hp. rewrite Hu in Hp. discriminate. }
  split; [exact Hbin|]. split; [exact Hbl|].
  split; [|auto].
  cbn [app filter is_action is_send_keys is_click orb].
  rewrite !filter_app, (only_reads_no_action t1 Hr1). cbn [app filter].
  cbn [is_action is_send_keys is_click orb].
  rewrite !filter_app, (only_reads_no_action t2 Hr2). reflexivity.
Qed.

Lemma login_success_means_form_filled_witness :
  exists inputs buttons uf pf b,
    find_elements two_text_inputs_page TAG_NAME "input" = Ok inputs /\
    find_elements two_text_inputs_page TAG_NAME "button" = Ok buttons /\
    In uf inputs /\ username_like uf = true /\
    In pf inputs /\ password_like pf = true /\ uf <> pf /\
    In b buttons /\ login_like b = true /\
    filter is_action
      (fst (login (Some "ann") (Some "secret") two_text_inputs_page)) =
      [SendKeys uf "ann"; SendKeys pf "secret"; Click b] /\
    el_send_keys uf "ann" = Ok tt /\
    el_send_keys pf "secret" = Ok tt /\
    el_click b = Ok tt.
Proof.
  apply (login_success_means_form_filled (Some "ann") (Some "secret")
           two_text_inputs_page).
  reflexivity.
Defined.

(** ** Detection and enumeration on a page read without exception *)

Lemma length_pos_nonempty {A} (l : list A) :
  (0 <? List.length l) = nonempty l.
Proof. now destruct l. Qed.

Lemma nonempty_filter {A} (f : A -> bool) (l : list A) :
  nonempty (filter f l) = existsb f l.
Proof.
  induction l as [|x l IH]; [reflexivity|].
  cbn [filter existsb]. now destruct (f x).
Qed.

Lemma is_poll_active_try_readable d sel bs :
  find_elements d XPATH no_poll_xpath = Ok [] ->
  find_elements d CSS_SELECTOR active_css = Ok sel ->
  find_elements d TAG_NAME "button" = Ok bs ->
  Forall readable bs ->
  is_poll_active_try d =
  ([Find XPATH no_poll_xpath; Find CSS_SELECTOR active_css;
    Find TAG_NAME "button"] ++ map ReadText bs,
   Ok (nonempty sel || existsb letter_button bs)).
Proof.
  intros Hx Hc Hb Hr. unfold is_poll_active_try, call_find_elements.
  rewrite Hx, bind_Ok. cbn [nonempty fst snd].
  rewrite Hc, bind_Ok. cbn [fst snd]. rewrite Hb, bind_Ok. cbn [fst snd].
  rewrite (collect_letter_buttons_readable bs [] Hr), bind_Ok.
  cbn [fst snd ret app].
  now rewrite app_nil_r, !length_pos_nonempty, nonempty_filter.
Qed.

(** X4: on a page read without exception and without the notice,
    [is_poll_active] queries the selector and the buttons, reads the text of
    every button, and returns [True] exactly when the selector found an
    element or some button has a trimmed text among the labels. *)
Theorem is_poll_active_exactly :
  forall (d : WebDriver) (by_selector buttons : list WebElement),
    find_elements d XPATH no_poll_xpath = Ok [] ->
    find_elements d CSS_SELECTOR active_css = Ok by_selector ->
    find_elements d TAG_NAME "button" = Ok buttons ->
    Forall readable buttons ->
    is_poll_active d =
    ([Find XPATH no_poll_xpath; Find CSS_SELECTOR active_css;
      Find TAG_NAME "button"] ++ map ReadText buttons,
     Ok (nonempty by_selector || existsb letter_button buttons)).
Proof.
  intros d sel bs Hx Hc Hb Hr. unfold is_poll_active.
  now rewrite (is_poll_active_try_readable d sel bs Hx Hc Hb Hr).
Qed.

Lemma is_poll_active_exactly_witness :
  is_poll_active late_letters_page =
  ([Find XPATH no_poll_xpath; Find CSS_SELECTOR active_css;
    Find TAG_NAME "button";
    ReadText (element 1 "C" []); ReadText (element 2 "D" [])],
   Ok false).
Proof.
  apply (is_poll_active_exactly late_letters_page []
           [element 1 "C" []; element 2 "D" []]); try reflexivity.
  repeat constructor.
Defined.

(** X5: [is_poll_active] and [get_answer_choices] only read the page:
    whatever the browser answers, they never fill a field, click,
    navigate, sleep or close the session. *)
Theorem inspection_only_reads :
  forall d : WebDriver,
    only_reads (fst (is_poll_active d)) /\
    only_reads (fst (get_answer_choices d)).
Proof.
  intros d. split;
    [apply is_poll_active_reads|apply get_answer_choices_reads].
Qed.

Lemma choice_id_of_readable e :
  label_readable e -> choice_id_of e = (label_reads e, Ok (label_of e)).
Proof.
  intros [Ha Ht]. unfold choice_id_of, call_get_attribute, label_reads, label_of.
  rewrite Ha, bind_Ok.
  destruct (opt_truthy (attr_of e "data-choice")); [reflexivity|].
  unfold call_text. rewrite (Ht eq_refl). reflexivity.
Qed.

Lemma collect_by_selector_readable els acc :
  Forall label_readable els ->
  collect_by_selector els acc =
  (flat_map label_reads els,
   Ok (acc ++ filter (fun c : Choice => str_truthy (snd c))
                (map (fun x => (x, label_of x)) els))).
Proof.
  intros H. revert acc.
  induction H as [|e els He _ IH]; intros acc; cbn [collect_by_selector].
  - unfold ret. now rewrite app_nil_r.
  - rewrite (choice_id_of_readable e He), bind_Ok.
    cbn [flat_map map filter fst snd].
    destruct (str_truthy (label_of e)); rewrite IH; cbn [fst snd];
      [rewrite <- app_assoc|]; reflexivity.
Qed.

(** X6: when the selector finds elements whose label can be read,
    [get_answer_choices] pairs each one, in order, with its [data-choice]
    attribute if that is a non-empty string and else with its trimmed
    text, reading the text only in the second case, and drops the elements
    whose label is empty; the buttons are not queried. *)
Theorem get_answer_choices_by_selector :
  forall (d : WebDriver) (e : WebElement) (l : list WebElement),
    find_elements d CSS_SELECTOR choices_css = Ok (e :: l) ->
    Forall label_readable (e :: l) ->
    get_answer_choices d =
    (Find CSS_SELECTOR choices_css :: flat_map label_reads (e :: l),
     Ok (filter (fun c : Choice => str_truthy (snd c))
           (map (fun x => (x, label_of x)) (e :: l)))).
Proof.
  intros d e l Hc Hr.
  unfold get_answer_choices, get_answer_choices_try, call_find_elements.
  rewrite Hc, bind_Ok. cbn [nonempty negb fst snd].
  rewrite (collect_by_selector_readable (e :: l) [] Hr). reflexivity.
Qed.

Lemma get_answer_choices_by_selector_witness :
  get_answer_choices marked_page =
  (let a := element 1 "Yes" [("data-choice", "A")] in
   let b := element 2 " No " [("class", "answer-option")] in
   let c := element 3 "" [("class", "answer-option")] in
   ([Find CSS_SELECTOR choices_css; ReadAttr a "data-choice";
     ReadAttr b "data-choice"; ReadText b;
     ReadAttr c "data-choice"; ReadText c],
    Ok [(a, "A"); (b, "No")])).
Proof.
  apply (get_answer_choices_by_selector marked_page
           (element 1 "Yes" [("data-choice", "A")])
           [element 2 " No " [("class", "answer-option")];
            element 3 "" [("class", "answer-option")]]).
  - reflexivity.
  - repeat constructor; discriminate.
Defined.

(** ** Where the choices come from, on any page *)

Lemma choice_id_of_label e t s :
  choice_id_of e = (t, Ok s) -> s = label_of e.
Proof.
  unfold choice_id_of, call_get_attribute, label_of, attr_of. intros H.
  destruct (el_get_attribute e "data-choice") as [a|x]; [|discriminate H].
  rewrite bind_Ok in H. cbn [fst snd] in H.
  destruct (opt_truthy a).
  - now injection H as _ <-.
  - unfold call_text, text_of in *.
    destruct (el_text e) as [s0|x]; [|discriminate H].
    now injection H as _ <-.
Qed.

Lemma collect_by_selector_from els :
  forall acc t l,
    collect_by_selector els acc = (t, Ok l) ->
    forall c : Choice, In c l ->
      In c acc \/
      (In (fst c) els /\ snd c = label_of (fst c) /\ snd c <> "").
Proof.
  induction els as [|e els IH]; intros acc t l H c Hc.
  - injection H as _ <-. auto.
  - cbn [collect_by_selector] in H.
    destruct (choice_id_of e) as [t1 [s|x]] eqn:E; [|discriminate H].
    rewrite bind_Ok in H. cbn [fst snd] in H.
    apply choice_id_of_label in E. injection H as _ H.
    destruct (str_truthy s) eqn:Hs.
    + destruct (collect_by_selector els (acc ++ [(e, s)])) as [t2 r2] eqn:E2.
      cbn [snd] in H. subst r2.
      destruct (IH _ _ _ E2 c Hc) as [Hin|(Hin & Hl & Hn)].
      * apply in_app_or in Hin as [Hin|[<-|[]]]; [auto|].
        right. cbn [fst snd In]. split; [auto|]. split; [exact E|].
        intros ->. discriminate Hs.
      * right. cbn [In]. auto.
    + destruct (collect_by_selector els acc) as [t2 r2] eqn:E2.
      cbn [snd] in H. subst r2.
      destruct (IH _ _ _ E2 c Hc) as [Hin|(Hin & Hl & Hn)]; [auto|].
      right. cbn [In]. auto.
Qed.

Lemma collect_by_text_from bs :
  forall acc t l,
    collect_by_text bs acc = (t, Ok l) ->
    forall c : Choice, In c l ->
      In c acc \/
      (In (fst c) bs /\ readable (fst c) /\
       snd c = strip (text_of (fst c)) /\ is_letter (snd c) = true).
Proof.
  induction bs as [|b bs IH]; intros acc t l H c Hc.
  - injection H as _ <-. auto.
  - cbn [collect_by_text] in H. unfold call_text in H.
    destruct (el_text b) as [s|x] eqn:Hs; [|discriminate H].
    rewrite bind_Ok in H. cbn [fst snd] in H.
    assert (Hb : readable b) by (unfold readable, text_of; now rewrite Hs).
    assert (Ht : text_of b = s) by (unfold text_of; now rewrite Hs).
    injection H as _ H.
    destruct (is_letter (strip s)) eqn:Hl.
    + destruct (collect_by_text bs (acc ++ [(b, strip s)])) as [t2 r2] eqn:E2.
      cbn [snd] in H. subst r2.
      destruct (IH _ _ _ E2 c Hc) as [Hin|(Hin & H1 & H2 & H3)].
      * apply in_app_or in Hin as [Hin|[<-|[]]]; [auto|].
        right. cbn [fst snd In]. rewrite Ht. auto.
      * right. cbn [In]. auto.
    + destruct (collect_by_text bs acc) as [t2 r2] eqn:E2.
      cbn [snd] in H. subst r2.
      destruct (IH _ _ _ E2 c Hc) as [Hin|(Hin & H1 & H2 & H3)]; [auto|].
      right. cbn [In]. auto.
Qed.

(** X7: whatever the browser answers, every pair returned by
    [get_answer_choices] has a non-empty label and an element that the
    page returned: either an element found by the selector, labelled by its
    [data-choice] attribute or trimmed text, or, when the selector found
    nothing, a button whose trimmed text is "A" or "B", labelled by it. *)
Theorem choices_come_from_page :
  forall (d : WebDriver) (c : Choice),
    In c (enumerated d) ->
    snd c <> "" /\
    ((exists els,
        find_elements d CSS_SELECTOR choices_css = Ok els /\ els <> [] /\
        In (fst c) els /\ snd c = label_of (fst c)) \/
     (find_elements d CSS_SELECTOR choices_css = Ok [] /\
      exists bs,
        find_elements d TAG_NAME "button" = Ok bs /\
        In (fst c) bs /\ readable (fst c) /\
        snd c = strip (text_of (fst c)) /\ (snd c = "A" \/ snd c = "B"))).
Proof.
  intros d c. unfold enumerated, get_answer_choices.
  rewrite try_except_any_ok. cbn [snd].
  destruct (get_answer_choices_try d) as [t [l|x]] eqn:E; cbn [snd];
    [|intros []].
  intros Hc. unfold get_answer_choices_try, call_find_elements in E.
  destruct (find_elements d CSS_SELECTOR choices_css) as [[|e els]|x] eqn:Hs;
    [| |discriminate E]; rewrite bind_Ok in E; cbn [nonempty negb fst snd] in E.
  - destruct (find_elements d TAG_NAME "button") as [bs|x] eqn:Hb;
      [|discriminate E].
    rewrite bind_Ok in E. cbn [fst snd] in E.
    destruct (collect_by_text bs []) as [t2 r2] eqn:E2.
    injection E as _ ->.
    destruct (collect_by_text_from _ _ _ _ E2 c Hc)
      as [[]|(Hin & Hr & Hl & Hlet)].
    apply is_letter_iff in Hlet. split.
    + destruct Hlet as [-> | ->]; discriminate.
    + right. split; [reflexivity|]. exists bs. auto.
  - destruct (collect_by_selector (e :: els) []) as [t2 r2] eqn:E2.
    injection E as _ ->.
    destruct (collect_by_selector_from _ _ _ _ E2 c Hc)
      as [[]|(Hin & Hl & Hn)].
    split; [exact Hn|]. left. exists (e :: els).
    split; [reflexivity|]. split; [discriminate|]. auto.
Qed.

Lemma choices_come_from_page_witness :
  let b := element 2 "B" [] in
  snd (b, "B") <> "" /\
  ((exists els,
      find_elements plain_buttons_page CSS_SELECTOR choices_css = Ok els /\
      els <> [] /\ In (fst (b, "B")) els /\
      snd (b, "B") = label_of (fst (b, "B"))) \/
   (find_elements plain_buttons_page CSS_SELECTOR choices_css = Ok [] /\
    exists bs,
      find_elements plain_buttons_page TAG_NAME "button" = Ok bs /\
      In (fst (b, "B")) bs /\ readable (fst (b, "B")) /\
      snd (b, "B") = strip (text_of (fst (b, "B"))) /\
      (snd (b, "B") = "A" \/ snd (b, "B") = "B"))).
Proof.
  apply (choices_come_from_page plain_buttons_page (element 2 "B" [], "B")).
  right. left. reflexivity.
Defined.

(** ** Detection against enumeration *)

Lemma nonempty_map {A B} (f : A -> B) (l : list A) :
  nonempty (map f l) = nonempty l.
Proof. now destruct l. Qed.

(** X8: on a page read without exception and without the notice, on
    which the two spellings of the selector find the same elements, a
    non-empty enumeration implies that the poll is detected as active; and
    when the selector finds nothing, detection and enumeration agree: the
    poll is active exactly when there is a choice. *)
Theorem detection_agrees_with_enumeration :
  forall (d : WebDriver) (els bs : list WebElement),
    find_elements d XPATH no_poll_xpath = Ok [] ->
    find_elements d CSS_SELECTOR active_css = Ok els ->
    find_elements d CSS_SELECTOR choices_css = Ok els ->
    find_elements d TAG_NAME "button" = Ok bs ->
    Forall readable bs ->
    (enumerated d <> [] -> observed_active d = true) /\
    (els = [] -> observed_active d = nonempty (enumerated d)).
Proof.
  intros d els bs Hx Ha Hc Hb Hr.
  assert (Hact : observed_active d = nonempty els || existsb letter_button bs).
  { unfold observed_active, is_poll_active.
    now rewrite (is_poll_active_try_readable d els bs Hx Ha Hb Hr). }
  assert (Hfall : els = [] -> observed_active d = nonempty (enumerated d)).
  { intros ->. rewrite Hact. cbn [nonempty orb].
    unfold enumerated, get_answer_choices. rewrite try_except_any_ok. cbn [snd].
    unfold get_answer_choices_try, call_find_elements.
    rewrite Hc, bind_Ok. cbn [nonempty negb fst snd]. rewrite Hb, bind_Ok.
    cbn [fst snd]. rewrite (collect_by_text_readable bs [] Hr). cbn [snd app].
    now rewrite nonempty_map, nonempty_filter. }
  split; [|exact Hfall].
  intros Hne. destruct els as [|e l].
  - rewrite (Hfall eq_refl). now destruct (enumerated d).
  - now rewrite Hact.
Qed.

Lemma detection_agrees_with_enumeration_witness :
  observed_active plain_buttons_page = true /\
  observed_active late_letters_page = nonempty (enumerated late_letters_page).
Proof.
  split.
  - assert (Hr : Forall readable
                   [element 1 " A " []; element 2 "B" []; element 3 "Next" []])
      by (repeat constructor).
    destruct (detection_agrees_with_enumeration plain_buttons_page [] _
                eq_refl eq_refl eq_refl eq_refl Hr) as [H _].
    apply H. discriminate.
  - assert (Hr : Forall readable [element 1 "C" []; element 2 "D" []])
      by (repeat constructor).
    destruct (detection_agrees_with_enumeration late_letters_page [] _
                eq_refl eq_refl eq_refl eq_refl Hr) as [_ H].
    apply H. reflexivity.
Defined.

(** The converse of the first part fails: options found by the selector
    but without label make the poll active with nothing to choose. *)
Example active_without_choices :
  observed_active unlabelled_page = true /\ enumerated unlabelled_page = [].
Proof. split; reflexivity. Qed.

(** ** The loop on arbitrary observations *)

Lemma final_flag_app a b flag :
  final_flag (a ++ b) flag = final_flag b (final_flag a flag).
Proof.
  revert flag. induction a as [|o a IH]; intros flag; [reflexivity|].
  cbn [app final_flag]. apply IH.
Qed.

Lemma answer_count_app a b flag :
  answer_count (a ++ b) flag =
  answer_count a flag + answer_count b (final_flag a flag).
Proof.
  revert flag. induction a as [|o a IH]; intros flag; [reflexivity|].
  cbn [app final_flag answer_count]. rewrite IH. lia.
Qed.

Lemma waiting_keeps_unanswered obs :
  Forall (fun w => observed_active (page w) = true /\
                   enumerated (page w) = []) obs ->
  final_flag obs false = false /\ answer_count obs false = 0.
Proof.
  induction 1 as [|o obs [Ha He] _ IH]; [split; reflexivity|].
  cbn [final_flag answer_count]. unfold next_flag, answers.
  rewrite Ha, He. cbn [nonempty orb andb negb]. exact IH.
Qed.

(** X9: while passes see the poll active but enumerate no choice, the
    loop does not click and leaves [poll_answered] unset, so that the first
    later pass of the same poll that enumerates a choice clicks once and
    sets it. *)
Theorem loop_waits_for_choices :
  forall (self : Automator) (waiting : list Observation) (o : Observation),
    Forall (fun w => observed_active (page w) = true /\
                     enumerated (page w) = []) waiting ->
    observed_active (page o) = true ->
    enumerated (page o) <> [] ->
    snd (loop self waiting false) = Ok false /\
    clicks (fst (loop self waiting false)) = 0 /\
    snd (loop self (waiting ++ [o]) false) = Ok true /\
    clicks (fst (loop self (waiting ++ [o]) false)) = 1.
Proof.
  intros self waiting o Hw Ha Hc.
  destruct (waiting_keeps_unanswered waiting Hw) as [Hf Hn].
  assert (Hne : nonempty (enumerated (page o)) = true)
    by (destruct (enumerated (page o)); [contradiction|reflexivity]).
  rewrite !loop_flag, !loop_clicks, final_flag_app, answer_count_app, Hf, Hn.
  cbn [final_flag answer_count]. unfold next_flag, answers.
  rewrite Ha, Hne. auto.
Qed.

Lemma loop_waits_for_choices_witness :
  snd (loop clicker waiting_passes false) = Ok false /\
  clicks (fst (loop clicker waiting_passes false)) = 0 /\
  snd (loop clicker (waiting_passes ++ [marked_pass]) false) = Ok true /\
  clicks (fst (loop clicker (waiting_passes ++ [marked_pass]) false)) = 1.
Proof.
  apply (loop_waits_for_choices clicker waiting_passes marked_pass).
  - repeat constructor.
  - reflexivity.
  - discriminate.
Defined.

Lemma last_cons {A} (x : A) l d : last (x :: l) d = last l x.
Proof.
  destruct l as [|y l]; [reflexivity|].
  change (last (y :: l) d = last (y :: l) x). apply last_cons_default.
Qed.

Lemma loop_summary_bounds obs :
  forall flag prev,
    (flag = true -> prev = true) ->
    (final_flag obs flag = true -> last (poll_states obs) prev = true) /\
    answer_count obs flag <=
      rising_edges prev (poll_states obs)
      + (if prev && negb flag then 1 else 0).
Proof.
  induction obs as [|o obs IH]; intros flag prev Hinv.
  - cbn. split; [exact Hinv|lia].
  - unfold poll_states. cbn [final_flag answer_count map rising_edges].
    rewrite last_cons. fold (poll_states obs).
    unfold next_flag, answers.
    destruct (observed_active (page o)) eqn:Hs.
    + destruct (IH (flag || nonempty (enumerated (page o))) true
                  (fun _ => eq_refl)) as [I1 I2].
      split; [exact I1|].
      destruct flag; cbn [orb andb negb] in *.
      * rewrite (Hinv eq_refl) in *. cbn [negb andb] in *. lia.
      * destruct (nonempty (enumerated (page o))), prev;
          cbn [orb andb negb] in *; lia.
    + destruct (IH false false ltac:(discriminate)) as [I1 I2].
      split; [exact I1|]. cbn [andb negb] in *. lia.
Qed.

(** X10: on any observations, with or without choices to enumerate,
    [poll_answered] can be set after the passes only if the last pass saw
    the poll active, and the loop clicks at most once for each change from
    inactive to active. *)
Theorem loop_clicks_at_most_once_per_poll :
  forall (self : Automator) (obs : list Observation),
    (snd (loop self obs false) = Ok true ->
     last (poll_states obs) false = true) /\
    clicks (fst (loop self obs false))
      <= rising_edges false (poll_states obs).
Proof.
  intros self obs. rewrite loop_flag, loop_clicks.
  destruct (loop_summary_bounds obs false false ltac:(discriminate))
    as [H1 H2].
  split.
  - intros H. injection H as H. exact (H1 H).
  - cbn [andb] in H2. lia.
Qed.

Lemma loop_clicks_at_most_once_per_poll_witness :
  last (poll_states (waiting_passes ++ [marked_pass])) false = true /\
  clicks (fst (loop clicker waiting_passes false))
    <= rising_edges false (poll_states waiting_passes).
Proof.
  split.
  - apply (loop_clicks_at_most_once_per_poll clicker
             (waiting_passes ++ [marked_pass])).
    reflexivity.
  - apply (loop_clicks_at_most_once_per_poll clicker waiting_passes).
Defined.

Lemma select_random_answer_work choices r :
  forallb is_pass_work (fst (select_random_answer choices r)) = true.
Proof.
  destruct choices as [|c cs]; [reflexivity|].
  unfold select_random_answer. destruct (random_choice r c cs) as [el id].
  now rewrite try_except_any_ok.
Qed.

Lemma loop_body_ends_with_sleep self o flag :
  exists t,
    forallb is_pass_work t = true /\
    fst (loop_body self o flag) = t ++ [Sleep (check_interval self)].
Proof.
  assert (R : forall t, only_reads t -> forallb is_pass_work t = true).
  { intros t. apply only_reads_all. intros ev H.
    unfold is_pass_work. now rewrite H. }
  rewrite loop_body_eq. cbn [fst]. rewrite app_assoc.
  eexists. split; [|reflexivity].
  rewrite forallb_app, (R _ (is_poll_active_reads (page o))). cbn [andb].
  destruct (observed_active (page o) && negb flag); [|reflexivity].
  now rewrite forallb_app, (R _ (get_answer_choices_reads (page o))),
    select_random_answer_work.
Qed.

(** X11: the calls of the loop are, pass after pass, reads of the page
    and clicks followed by one [time.sleep] of [check_interval] seconds:
    every pass ends with its sleep and sleeps nowhere else, and the loop
    never fills a field, navigates or closes the session.  (The interval
    is a natural number: passes whose sleep returned.) *)
Theorem loop_sleeps_once_per_pass :
  forall (self : Automator) (obs : list Observation) (flag : bool),
    exists passes : list trace,
      List.length passes = List.length obs /\
      Forall (fun t => forallb is_pass_work t = true) passes /\
      fst (loop self obs flag) =
        flat_map (fun t => t ++ [Sleep (check_interval self)]) passes.
Proof.
  intros self obs. induction obs as [|o obs IH]; intros flag.
  - exists []. repeat split. constructor.
  - destruct (loop_body_ends_with_sleep self o flag) as (t & Ht & Et).
    destruct (IH (next_flag o flag)) as (ps & Hl & Hf & Ep).
    exists (t :: ps). cbn [List.length flat_map loop].
    split; [now rewrite Hl|]. split; [now constructor|].
    now rewrite fst_bind, loop_body_flag, Et, Ep.
Qed.

(** ** Starting the browser *)

Lemma find_binary_fst h path rest :
  path_exists h path = false ->
  find_binary h (path :: rest) =
  (PathExists path :: fst (find_binary h rest), snd (find_binary h rest)).
Proof.
  intros H. cbn [find_binary]. rewrite H. now destruct (find_binary h rest).
Qed.

(** X12: the search for the Chrome binary returns the first path of the
    list that exists, or the empty string when none does; it probes the
    paths in order and stops at the first that exists, so no path is
    probed after an existing one. *)
Theorem find_binary_first_existing :
  forall (h : Host) (paths : list string),
    snd (find_binary h paths) =
      match find (path_exists h) paths with Some p => p | None => "" end /\
    probed (fst (find_binary h paths)) =
      firstn (List.length (fst (find_binary h paths))) paths /\
    (forall pre p post,
        probed (fst (find_binary h paths)) = pre ++ p :: post ->
        post <> [] -> path_exists h p = false).
Proof.
  intros h paths. induction paths as [|path rest (IH1 & IH2 & IH3)].
  - repeat split. intros [|x pre] p post H; discriminate H.
  - destruct (path_exists h path) eqn:E.
    + cbn [find_binary find]. rewrite E. cbn. repeat split.
      intros [|x [|y pre]] p post H; try discriminate H.
      injection H as _ <-. now intros [].
    + rewrite (find_binary_fst h path rest E). cbn [fst snd find]. rewrite E.
      split; [exact IH1|]. cbn [probed List.length firstn]. split.
      * now rewrite <- IH2.
      * intros [|x pre] p post H Hpost; injection H as <- H.
        -- exact E.
        -- exact (IH3 pre p post H Hpost).
Qed.

Lemma find_binary_first_existing_witness :
  path_exists broken_mac (hd "" mac_chrome_paths) = true /\
  probed (fst (find_binary broken_mac (rev mac_chrome_paths))) =
    rev mac_chrome_paths /\
  path_exists broken_mac (hd "" (rev mac_chrome_paths)) = false.
Proof.
  destruct (find_binary_first_existing broken_mac (rev mac_chrome_paths))
    as (_ & H2 & H3).
  split; [reflexivity|]. split; [exact H2|].
  apply (H3 [] (hd "" (rev mac_chrome_paths)) [hd "" mac_chrome_paths]).
  - reflexivity.
  - discriminate.
Defined.

(** X13: [__init__] starts Chrome at most twice and the second start is
    given exactly the options of the first; the version command is run
    only on macOS after a failed first start, and when it fails the second
    start is not attempted and [__init__] raises; otherwise the outcome
    after a failed first start is that of the second. *)
Theorem start_driver_retries_with_same_options :
  forall (h : Host) (headless : bool),
    let options := snd (prepare_options h headless) in
    let t := fst (start_driver h headless) in
    arguments options = chrome_arguments headless /\
    (forall s, start_chrome h 0 options = Some s ->
       snd (start_driver h headless) = Some s /\
       filter is_start t = [StartChrome 0 options] /\
       filter is_shell t = []) /\
    (start_chrome h 0 options = None ->
     is_darwin h && negb (version_probe h (version_command options)) = true ->
       snd (start_driver h headless) = None /\
       filter is_start t = [StartChrome 0 options] /\
       filter is_shell t = [Shell (version_command options)]) /\
    (start_chrome h 0 options = None ->
     is_darwin h && negb (version_probe h (version_command options)) = false ->
       snd (start_driver h headless) = start_chrome h 1 options /\
       filter is_start t = [StartChrome 0 options; StartChrome 1 options] /\
       filter is_shell t =
         if is_darwin h then [Shell (version_command options)] else []).
Proof.
  intros h headless.
  assert (Hp : forall paths,
             filter is_start (fst (find_binary h paths)) = [] /\
             filter is_shell (fst (find_binary h paths)) = []).
  { induction paths as [|p r [I1 I2]]; [split; reflexivity|].
    cbn [find_binary]. destruct (path_exists h p); [split; reflexivity|].
    destruct (find_binary h r). cbn in *. auto. }
  unfold start_driver, prepare_options.
  assert (Hq : filter is_start
                 (fst (if is_darwin h then find_binary h mac_chrome_paths
                       else ([], ""))) = [] /\
               filter is_shell
                 (fst (if is_darwin h then find_binary h mac_chrome_paths
                       else ([], ""))) = []).
  { destruct (is_darwin h); [apply Hp|split; reflexivity]. }
  destruct (if is_darwin h then find_binary h mac_chrome_paths else ([], ""))
    as [t0 b]. cbn [fst snd] in *. destruct Hq as [Q1 Q2].
  set (options := {| arguments := chrome_arguments headless;
                     binary_location := b |}).
  split; [reflexivity|]. split; [|split].
  - intros s ->. cbn [fst snd]. rewrite !filter_app, Q1, Q2. auto.
  - intros -> H. apply andb_true_iff in H as [-> H].
    apply negb_true_iff in H. rewrite H. cbn [fst snd].
    rewrite !filter_app, Q1, Q2. auto.
  - intros -> H. destruct (is_darwin h); cbn [andb] in H.
    + apply negb_false_iff in H. rewrite H. cbn [fst snd].
      rewrite !filter_app, Q1, Q2. auto.
    + cbn [fst snd]. rewrite !filter_app, Q1, Q2. auto.
Qed.

Lemma start_driver_retries_with_same_options_witness :
  snd (start_driver ready_linux true) = Some 3 /\
  snd (start_driver broken_mac true) = None /\
  snd (start_driver slow_linux false) = Some 7 /\
  filter is_shell (fst (start_driver slow_linux false)) = [].
Proof.
  destruct (start_driver_retries_with_same_options ready_linux true)
    as (_ & H0 & _).
  destruct (start_driver_retries_with_same_options broken_mac true)
    as (_ & _ & H & _).
  destruct (start_driver_retries_with_same_options slow_linux false)
    as (_ & _ & _ & H').
  destruct (H0 3 eq_refl) as (H00 & _).
  destruct (H eq_refl eq_refl) as (H1 & _).
  destruct (H' eq_refl eq_refl) as (H2 & _ & H3).
  auto.
Defined.

(** ** What the loop clicks *)

Lemma clicked_app t u : clicked (t ++ u) = clicked t ++ clicked u.
Proof.
  induction t as [|ev t IH]; [reflexivity|].
  destruct ev; cbn [app clicked]; now rewrite ?IH.
Qed.

Lemma only_reads_clicked t : only_reads t -> clicked t = [].
Proof.
  unfold only_reads. induction t as [|ev t IH]; [reflexivity|].
  cbn [forallb]. intros H. apply andb_true_iff in H as [Hev Ht].
  destruct ev; try discriminate Hev; cbn [clicked]; auto.
Qed.

Lemma select_random_answer_clicked choices r e :
  In e (clicked (fst (select_random_answer choices r))) ->
  In e (map fst choices).
Proof.
  destruct choices as [|c cs]; [intros []|].
  unfold select_random_answer.
  pose proof (random_choice_In r c cs) as Hin.
  destruct (random_choice r c cs) as [el id].
  rewrite try_except_any_ok. cbn [fst call_click clicked].
  intros [<-|[]]. apply (in_map fst) in Hin. exact Hin.
Qed.

Lemma loop_body_clicked self o flag e :
  In e (clicked (fst (loop_body self o flag))) ->
  observed_active (page o) = true /\ flag = false /\
  In e (map fst (enumerated (page o))).
Proof.
  rewrite loop_body_eq. cbn [fst]. rewrite !clicked_app.
  rewrite (only_reads_clicked _ (is_poll_active_reads (page o))).
  cbn [app clicked]. rewrite app_nil_r.
  destruct (observed_active (page o)), flag; cbn [andb negb clicked];
    try (intros []).
  rewrite clicked_app,
    (only_reads_clicked _ (get_answer_choices_reads (page o))).
  cbn [app]. intros H. apply select_random_answer_clicked in H. auto.
Qed.

Lemma loop_split self before o after :
  forall flag,
    fst (loop self (before ++ o :: after) flag) =
    fst (loop self before flag)
    ++ fst (loop_body self o (final_flag before flag))
    ++ fst (loop self after (next_flag o (final_flag before flag))).
Proof.
  induction before as [|x before IH]; intros flag; cbn [app loop final_flag].
  - now rewrite fst_bind, loop_body_flag.
  - now rewrite !fst_bind, !loop_body_flag, IH, app_assoc.
Qed.

(** X14: the calls of the loop split pass by pass, each pass working on
    its own observation, and every element clicked during a pass is the
    element of a choice that [get_answer_choices] enumerates on the page of
    that same pass, a page on which [is_poll_active] reports an active poll
    and which the loop reaches with [poll_answered] unset. *)
Theorem loop_clicks_only_enumerated_choices :
  forall (self : Automator) (before : list Observation) (o : Observation)
         (after : list Observation) (flag : bool),
    fst (loop self (before ++ o :: after) flag) =
      fst (loop self before flag)
      ++ fst (loop_body self o (final_flag before flag))
      ++ fst (loop self after (next_flag o (final_flag before flag))) /\
    (forall e,
        In e (clicked (fst (loop_body self o (final_flag before flag)))) ->
        observed_active (page o) = true /\
        final_flag before flag = false /\
        In e (map fst (enumerated (page o)))).
Proof.
  intros self before o after flag. split; [apply loop_split|].
  intros e. apply loop_body_clicked.
Qed.

Lemma loop_clicks_only_enumerated_choices_witness :
  let idle := {| page := idle_page; draw := 0 |} in
  let o := {| page := plain_buttons_page; draw := 3 |} in
  clicked (fst (loop_body clicker o (final_flag [idle] false))) =
    [element 2 "B" []] /\
  observed_active (page o) = true /\
  final_flag [idle] false = false /\
  In (element 2 "B" []) (map fst (enumerated (page o))).
Proof.
  split; [reflexivity|].
  destruct (loop_clicks_only_enumerated_choices clicker
              [ {| page := idle_page; draw := 0 |} ]
              {| page := plain_buttons_page; draw := 3 |}
              [] false) as [_ H].
  apply (H (element 2 "B" [])). left. reflexivity.
Defined.

(** ** Whitespace beyond ASCII *)

(** [strip] on texts padded with no-break and em spaces. *)
Example strip_unicode_whitespace :
  strip (String.append nbsp (String.append "A" nbsp)) = "A" /\
  strip em_space = "" /\
  strip (String.append em_space "X") = "X" /\
  strip " a b " = "a b".
Proof. repeat split. Qed.

(** A button labelled A between no-break spaces is a lettered button: the
    poll is active and the button is a choice labelled "A". *)
Example padded_button_is_a_choice :
  snd (is_poll_active padded_button_page) = Ok true /\
  snd (get_answer_choices padded_button_page) = Ok [(padded_button, "A")].
Proof. split; reflexivity. Qed.

(** An option whose text is an em space has an empty label and is
    dropped. *)
Example blank_option_is_dropped :
  label_of blank_option = "" /\
  snd (get_answer_choices blank_option_page) = Ok [].
Proof. split; reflexivity. Qed.
